(** * git-migrate: the migration orchestrator and the credential writer

    A shallow embedding of [ref.go] (the orchestrator: configuration from the
    environment, adapter lookup, fetch, the migration loop) and of
    [auth_ref.go] (the interactive form that persists its answers with
    [writeEnvFile]). Each Go file is a [package main] of its own, so each gets
    a module of its own here.

    Conventions:
    - a Go [string] is a [string]; [==] on strings is [String.eqb];
    - a Go [error] is the message it prints with [%v]; [nil] is [None];
    - a [map[string]string] and the process environment are
      [gmap string string];
    - output and calls through the [ForgeClient] interface are recorded, in
      program order, as a list of [Event]s, and the remote forges are an
      explicit [World] threaded through the interface methods. *)

From Stdlib Require Import String Ascii List Arith Lia.
From stdpp Require Import base option list strings pretty gmap.

Local Open Scope list_scope.

(** Go's [error] values, observed through [%v]. *)
Definition error := string.

(** The line feed that ends every format string of the source. *)
Definition LF : string := String (ascii_of_nat 10) EmptyString.

(** [fmt.Sprintf("%t", b)]. *)
Definition Sprintf_t (b : bool) : string := if b then "true" else "false".

(* ====================================================================== *)
(** * ref.go *)
(* ====================================================================== *)

Module ref.

(** [type Config struct] *)
Record Config := {
  SourceType : string;
  SourceDomain : string;
  SourceUsername : string;
  SourceToken : string;
  TargetType : string;
  TargetDomain : string;
  TargetUsername : string;
  TargetToken : string;
  TargetRepoOwner : string;
  MakePrivate : bool;
  EnableWiki : bool;
  EnableMirror : bool
}.

(** [type Repository struct] *)
Record Repository := {
  Name : string;
  CloneURL : string;
  SSHURL : string
}.

(** [type GitHubRepo struct], the decoded JSON record of the GitHub API. *)
Record GitHubRepo := {
  gh_Name : string;
  gh_HTMLURL : string;
  gh_CloneURL : string
}.

(** ** The environment *)

(** Modelled from the spec: [getEnv(key, defaultValue)] is called by [main]
    but its body is not part of ref.go as available. The spec's inbound
    configuration is "a flat key/value set" with defaults for what is unset:
    a key that is set yields its value, a key that is not set yields
    [defaultValue]. *)
Definition getEnv (env : gmap string string) (key defaultValue : string) : string :=
  default defaultValue (env !! key).

(** [main], lines 44-59: the [Config] literal. [getEnv] is the lookup the
    literal is built with, so that what the literal does can be told apart
    from what the lookup does. *)
Definition main_config (getEnv : string -> string -> string) : Config := {|
  SourceType := getEnv "SOURCE_TYPE" "github";
  SourceDomain := getEnv "SOURCE_DOMAIN" "github.com";
  SourceUsername := getEnv "SOURCE_USERNAME" "";
  SourceToken := getEnv "SOURCE_TOKEN" "";
  TargetType := getEnv "TARGET_TYPE" "gitea";
  TargetDomain := getEnv "TARGET_DOMAIN" "";
  TargetUsername := getEnv "TARGET_USERNAME" "";
  TargetToken := getEnv "TARGET_TOKEN" "";
  TargetRepoOwner := getEnv "TARGET_REPO_OWNER" "";
  MakePrivate := String.eqb (getEnv "MAKE_PRIVATE" "true") "true";
  EnableWiki := String.eqb (getEnv "ENABLE_WIKI" "true") "true";
  EnableMirror := String.eqb (getEnv "ENABLE_MIRROR" "false") "true"
|}.

(** ** The process: output, calls, exit *)

(** What a run does that an observer can see. [log.Printf] and [log.Fatalf]
    write to standard error (the time stamp of the logger is left out). *)
Inductive Event :=
| Stdout (text : string)
| Stderr (text : string)
| CallFetchRepos (config : Config)
| CallMigrateRepo (config : Config) (repo : Repository).

(** A statement either falls through with a value or ends the process
    ([log.Fatalf] is [os.Exit(1)] after printing). *)
Inductive Outcome (A : Type) :=
| Done (a : A)
| Exited (status : nat).
Arguments Done {A} a.
Arguments Exited {A} status.

Definition Proc (World A : Type) : Type := World -> Outcome A * list Event * World.

Definition pret {World A} (a : A) : Proc World A :=
  fun w => (Done a, [], w).

Definition pbind {World A B} (m : Proc World A) (k : A -> Proc World B) : Proc World B :=
  fun w =>
    match m w with
    | (Done a, t1, w1) =>
        match k a w1 with
        | (r, t2, w2) => (r, t1 ++ t2, w2)
        end
    | (Exited status, t1, w1) => (Exited status, t1, w1)
    end.

Notation "x <- m ;; k" := (pbind m (fun x => k))
  (at level 100, m at next level, right associativity).
Notation "m ;;; k" := (pbind m (fun _ => k))
  (at level 100, right associativity).

Definition fmt_Printf {World} (text : string) : Proc World unit :=
  fun w => (Done tt, [Stdout text], w).

Definition log_Printf {World} (text : string) : Proc World unit :=
  fun w => (Done tt, [Stderr text], w).

Definition log_Fatalf {World A} (text : string) : Proc World A :=
  fun w => (Exited 1, [Stderr text], w).

(** [for _, x := range xs { body }] *)
Fixpoint for_range {World A} (xs : list A) (body : A -> Proc World unit) : Proc World unit :=
  match xs with
  | [] => pret tt
  | x :: rest => body x ;;; for_range rest body
  end.

(** ** The forge interface *)

(** [type ForgeClient interface]: the two methods act on the remote forges.
    Go returns the pair [(repos, err)]; [main] looks at [err] first. *)
Record ForgeClient (World : Type) := {
  FetchRepos : Config -> World -> (list Repository * option error) * World;
  MigrateRepo : Config -> Repository -> World -> option error * World
}.
Arguments FetchRepos {World} _ _ _.
Arguments MigrateRepo {World} _ _ _ _.

Definition call_FetchRepos {World} (c : ForgeClient World) (config : Config)
  : Proc World (list Repository * option error) :=
  fun w => let '(r, w') := FetchRepos c config w in (Done r, [CallFetchRepos config], w').

Definition call_MigrateRepo {World} (c : ForgeClient World) (config : Config) (repo : Repository)
  : Proc World (option error) :=
  fun w => let '(r, w') := MigrateRepo c config repo w in (Done r, [CallMigrateRepo config repo], w').

Section Orchestrator.

Context {World : Type}.

(** [validateConfig] is called by [main]; its body is not in ref.go as
    available, so it is any function from a [Config] to an optional error. *)
Variable validateConfig : Config -> option error.

(** The three adapters. Only the first lines of [GitHubClient.FetchRepos]
    are in ref.go as available, so each is any implementation of the
    interface. *)
Variables GitHubClient GitLabClient GiteaClient : ForgeClient World.

(** [func getForgeClient(forgeType string) ForgeClient], lines 97-108. *)
Definition getForgeClient (forgeType : string) : option (ForgeClient World) :=
  if String.eqb forgeType "github" then Some GitHubClient
  else if String.eqb forgeType "gitlab" then Some GitLabClient
  else if String.eqb forgeType "gitea" || String.eqb forgeType "forgejo" then Some GiteaClient
  else None.

(** The body of the loop of lines 87-94. *)
Definition migrate_one (targetClient : ForgeClient World) (config : Config)
    (repo : Repository) : Proc World unit :=
  fmt_Printf ("Migrating " +:+ Name repo +:+ "..." +:+ LF) ;;;
  err <- call_MigrateRepo targetClient config repo ;;
  match err with
  | Some e => log_Printf ("Failed to migrate " +:+ Name repo +:+ ": " +:+ e)
  | None => fmt_Printf ("✓ Successfully migrated " +:+ Name repo +:+ LF)
  end.

(** [main], lines 61-95: everything after the [Config] literal. *)
Definition main_run (config : Config) : Proc World unit :=
  match validateConfig config with
  | Some err => log_Fatalf ("Invalid configuration: " +:+ err)
  | None => pret tt
  end ;;;
  sourceClient <-
    match getForgeClient (SourceType config) with
    | None => log_Fatalf ("Unsupported source forge type: " +:+ SourceType config)
    | Some c => pret c
    end ;;
  targetClient <-
    match getForgeClient (TargetType config) with
    | None => log_Fatalf ("Unsupported target forge type: " +:+ TargetType config)
    | Some c => pret c
    end ;;
  fetched <- call_FetchRepos sourceClient config ;;
  match snd fetched with
  | Some err =>
      log_Fatalf ("Failed to fetch repos from " +:+ SourceType config +:+ ": " +:+ err)
  | None => pret tt
  end ;;;
  let repos := fst fetched in
  fmt_Printf ("Found " +:+ pretty (length repos) +:+ " repositories on "
              +:+ SourceDomain config +:+ LF) ;;;
  for_range repos (migrate_one targetClient config).

(** [func main()] *)
Definition main (env : gmap string string) : Proc World unit :=
  main_run (main_config (getEnv env)).

End Orchestrator.

(** ** GitHubClient.FetchRepos *)

(** What [http.NewRequest], [SetBasicAuth] and [Header.Set] build. *)
Record Request := {
  Method : string;
  URL : string;
  BasicAuth : string * string;
  Accept : string
}.

(** What [client.Do] hands back: the status and the body as [json.Decode]
    into [[]GitHubRepo] reads it ([None] when it does not decode).
    [NoNextPage] stands for the spec's "explicit no next page signal": it is
    true when the forge says, beside the body, that no page follows. *)
Record Response := {
  StatusCode : nat;
  Body : option (list GitHubRepo);
  NoNextPage : bool
}.

(** The page size the source asks for: the literal of [per_page=200]. *)
Definition per_page : nat := 200.

(** Lines 120-121: the URL of the request. *)
Definition FetchRepos_url (config : Config) : string :=
  "https://" +:+ SourceDomain config +:+ "/api/v3/users/" +:+ SourceUsername config
  +:+ "/repos?per_page=200&type=all".

(** Modelled from the spec: the request for page [page]. Page 1 is the
    request of lines 120-129 as it stands; what ref.go does after line 136 is
    not available, and the spec asks for further pages to be requested. *)
Definition page_url (config : Config) (page : nat) : string :=
  if Nat.eqb page 1 then FetchRepos_url config
  else FetchRepos_url config +:+ "&page=" +:+ pretty page.

(** Lines 123-129: [GET], basic auth with user name and token, the [Accept]
    header. *)
Definition page_request (config : Config) (page : nat) : Request := {|
  Method := "GET";
  URL := page_url config page;
  BasicAuth := (SourceUsername config, SourceToken config);
  Accept := "application/vnd.github.v3+json"
|}.

(** Modelled from the spec: the mapping of an API record to a [Repository]
    ("name, HTTPS clone URL, SSH URL if present"); [GitHubRepo] has no SSH
    field. *)
Definition toRepository (r : GitHubRepo) : Repository :=
  {| Name := gh_Name r; CloneURL := gh_CloneURL r; SSHURL := "" |}.

Section GitHub.

Context {World : Type}.

(** [http.NewRequest] refuses a URL it cannot parse. *)
Variable http_NewRequest : string -> string -> option error.

(** [(&http.Client{}).Do(req)] *)
Variable http_Do : Request -> World -> (Response + error) * World.

(** Lines 123-135, for one page: build the request, send it; either step
    may fail and then [FetchRepos] returns [nil, err]. *)
Definition do_page (config : Config) (page : nat) (w : World)
    : (Response + error) * World :=
  match http_NewRequest "GET" (page_url config page) with
  | Some err => (inr err, w)
  | None => http_Do (page_request config page) w
  end.

(** Modelled from the spec: the part of [GitHubClient.FetchRepos] after
    line 136, which is not available. A status other than 200 and a body
    that does not decode are errors; the records of the page are appended;
    requesting goes on "until a page returns fewer items than the requested
    page size, or an explicit no next page signal is present". [fuel]
    bounds the number of requests; [None] is a loop cut short by it. *)
Fixpoint fetch_pages (fuel : nat) (config : Config) (page : nat)
    (acc : list Repository) (w : World)
    : option ((list Repository * option error) * World) :=
  match fuel with
  | 0 => None
  | S fuel' =>
      match do_page config page w with
      | (inr err, w1) => Some (([], Some err), w1)
      | (inl resp, w1) =>
          if negb (Nat.eqb (StatusCode resp) 200) then
            Some (([], Some ("GitHub API returned status " +:+ pretty (StatusCode resp))), w1)
          else
            match Body resp with
            | None => Some (([], Some "cannot decode response body"), w1)
            | Some items =>
                let acc' := acc ++ map toRepository items in
                if Nat.ltb (length items) per_page || NoNextPage resp
                then Some ((acc', None), w1)
                else fetch_pages fuel' config (S page) acc' w1
            end
      end
  end.

(** [func (c *GitHubClient) FetchRepos(config Config) ([]Repository, error)] *)
Definition GitHubClient_FetchRepos (fuel : nat) (config : Config) (w : World)
    : option ((list Repository * option error) * World) :=
  fetch_pages fuel config 1 [] w.

End GitHub.

(** The [page]-th page (from 1) of what a forge holds, at the requested page
    size. *)
Definition page_of (all : list GitHubRepo) (page : nat) : list GitHubRepo :=
  take per_page (drop ((page - 1) * per_page) all).

(** ** Reading a trace *)

(** The repositories [MigrateRepo] was called on, in call order. *)
Fixpoint migrate_calls (t : list Event) : list Repository :=
  match t with
  | [] => []
  | CallMigrateRepo _ repo :: t' => repo :: migrate_calls t'
  | _ :: t' => migrate_calls t'
  end.

(** How many calls went through the interface, of either method: every HTTP
    request of a run is issued inside one. *)
Fixpoint interface_calls (t : list Event) : nat :=
  match t with
  | [] => 0
  | CallFetchRepos _ :: t' => S (interface_calls t')
  | CallMigrateRepo _ _ :: t' => S (interface_calls t')
  | _ :: t' => interface_calls t'
  end.

(** The configurations [MigrateRepo] was called with, in call order. *)
Fixpoint migrate_configs (t : list Event) : list Config :=
  match t with
  | [] => []
  | CallMigrateRepo config _ :: t' => config :: migrate_configs t'
  | _ :: t' => migrate_configs t'
  end.

(** The line that tells how one call of [MigrateRepo] ended (lines 89-93). *)
Definition report_of (repo : Repository) (err : option error) : Event :=
  match err with
  | Some e => Stderr ("Failed to migrate " +:+ Name repo +:+ ": " +:+ e)
  | None => Stdout ("✓ Successfully migrated " +:+ Name repo +:+ LF)
  end.

(** The parts of the result of a run. *)
Definition outcome_of {World A} (r : Outcome A * list Event * World) : Outcome A := fst (fst r).
Definition trace_of {World A} (r : Outcome A * list Event * World) : list Event := snd (fst r).
Definition world_of {World A} (r : Outcome A * list Event * World) : World := snd r.

(** The configurations [FetchRepos] was called with, in call order. *)
Fixpoint fetch_calls (t : list Event) : list Config :=
  match t with
  | [] => []
  | CallFetchRepos config :: t' => config :: fetch_calls t'
  | _ :: t' => fetch_calls t'
  end.

(** The variables the [Config] literal of [main] asks for (lines 45-58). *)
Definition config_keys : list string :=
  ["SOURCE_TYPE"; "SOURCE_DOMAIN"; "SOURCE_USERNAME"; "SOURCE_TOKEN";
   "TARGET_TYPE"; "TARGET_DOMAIN"; "TARGET_USERNAME"; "TARGET_TOKEN";
   "TARGET_REPO_OWNER"; "MAKE_PRIVATE"; "ENABLE_WIKI"; "ENABLE_MIRROR"].

(** The forges after [MigrateRepo] was applied to the repositories one after
    the other. *)
Definition migrated_world {World} (targetClient : ForgeClient World) (config : Config)
    (repos : list Repository) (w : World) : World :=
  fold_left (fun w repo => snd (MigrateRepo targetClient config repo w)) repos w.

(** The kinds the source and the target of a [Config] are documented with
    (the comments of lines 14 and 19). *)
Definition source_kinds : list string := ["github"; "gitlab"; "gitea"; "forgejo"].
Definition target_kinds : list string := ["gitea"; "forgejo"; "gitlab"].

(** Modelled from the spec: [validateConfig] is not in ref.go as available.
    The spec has validation check that the kinds resolve ("validate
    Configuration (kinds resolvable, ...)"), the target kind being one of
    gitea, forgejo, gitlab; this is what it says about the target kind. *)
Definition rejects_unknown_target (validateConfig : Config -> option error) : Prop :=
  forall config, ~ In (TargetType config) target_kinds -> validateConfig config <> None.

End ref.

(* ====================================================================== *)
(** * auth_ref.go *)
(* ====================================================================== *)

Module auth_ref.

(** [type Forge struct] *)
Record Forge := {
  SourceType : string;
  SourceUsername : string;
  SourceToken : string;
  SourceDomain : string;
  TargetType : string;
  TargetUsername : string;
  TargetToken : string;
  TargetDomain : string;
  MakePrivate : bool;
  EnableMirror : bool
}.

(** The working directory as [writeEnvFile] meets it: the text of [.env]
    ([None] when [os.Stat] finds no file), the error of [os.OpenFile] if
    opening for writing fails, and, if a write is going to fail, the number
    of lines that are written before it and the error of [fmt.Fprintf]. *)
Record Files := {
  dotenv : option string;
  open_error : option error;
  write_error : option (nat * error)
}.

(** Lines 109-111: [for k, v := range vars { existingVars[k] = v }]. *)
Definition merge (vars existingVars : gmap string string) : gmap string string :=
  map_fold (fun k v acc => <[k:=v]> acc) existingVars vars.

(** Line 122: what [fmt.Fprintf(file, "%s=%s\n", k, v)] writes. The value is
    written as it is, without quotes. *)
Definition line (kv : string * string) : string :=
  fst kv +:+ "=" +:+ snd kv +:+ LF.

(** The text of a file that was written line by line. *)
Definition text_of (lines : list string) : string := String.concat "" lines.

(** Lines 207-218: the map literal of [CompleteAuth]. *)
Definition CompleteAuth_envVars (forge : Forge) : gmap string string :=
  list_to_map [
    ("SRC_TYPE", SourceType forge);
    ("SRC_USER", SourceUsername forge);
    ("SRC_DOMAIN", SourceDomain forge);
    ("SRC_TOKEN", SourceToken forge);
    ("TARGET_TYPE", TargetType forge);
    ("TARGET_USER", TargetUsername forge);
    ("TARGET_DOMAIN", TargetDomain forge);
    ("TARGET_TOKEN", TargetToken forge);
    ("MAKE_PRIVATE", Sprintf_t (MakePrivate forge));
    ("ENABLE_MIRROR", Sprintf_t (EnableMirror forge))
  ].

(** Lines 90-95: the map literal of [SourceAuthWithForm]. *)
Definition SourceAuthWithForm_envVars (forge : Forge) : gmap string string :=
  list_to_map [
    ("SRC_TYPE", SourceType forge);
    ("SRC_USER", SourceUsername forge);
    ("SRC_DOMAIN", SourceDomain forge);
    ("SRC_TOKEN", SourceToken forge)
  ].

(** Assignment through the pointers [&forge.SourceType], ... of lines 35-38. *)
Definition set_SourceType (s : string) (f : Forge) : Forge := {|
  SourceType := s; SourceUsername := SourceUsername f; SourceToken := SourceToken f;
  SourceDomain := SourceDomain f; TargetType := TargetType f;
  TargetUsername := TargetUsername f; TargetToken := TargetToken f;
  TargetDomain := TargetDomain f; MakePrivate := MakePrivate f;
  EnableMirror := EnableMirror f |}.
Definition set_SourceUsername (s : string) (f : Forge) : Forge := {|
  SourceType := SourceType f; SourceUsername := s; SourceToken := SourceToken f;
  SourceDomain := SourceDomain f; TargetType := TargetType f;
  TargetUsername := TargetUsername f; TargetToken := TargetToken f;
  TargetDomain := TargetDomain f; MakePrivate := MakePrivate f;
  EnableMirror := EnableMirror f |}.
Definition set_SourceDomain (s : string) (f : Forge) : Forge := {|
  SourceType := SourceType f; SourceUsername := SourceUsername f;
  SourceToken := SourceToken f; SourceDomain := s; TargetType := TargetType f;
  TargetUsername := TargetUsername f; TargetToken := TargetToken f;
  TargetDomain := TargetDomain f; MakePrivate := MakePrivate f;
  EnableMirror := EnableMirror f |}.
Definition set_SourceToken (s : string) (f : Forge) : Forge := {|
  SourceType := SourceType f; SourceUsername := SourceUsername f; SourceToken := s;
  SourceDomain := SourceDomain f; TargetType := TargetType f;
  TargetUsername := TargetUsername f; TargetToken := TargetToken f;
  TargetDomain := TargetDomain f; MakePrivate := MakePrivate f;
  EnableMirror := EnableMirror f |}.

(** An element of the [fields] slice of [SourceAuth]; the pointer [value] is
    the pair of reading and writing the field it points to. *)
Record Field := {
  title : string;
  prompt : string;
  envKey : string;
  value : Forge -> string;
  set_value : string -> Forge -> Forge
}.

(** Lines 29-39. *)
Definition SourceAuth_fields : list Field := [
  {| title := "Enter your Git forge type";
     prompt := "Forge type (github/gitlab/gitea/forgejo)...";
     envKey := "SRC_TYPE"; value := SourceType; set_value := set_SourceType |};
  {| title := "Enter your forge username"; prompt := "Forge username...";
     envKey := "SRC_USER"; value := SourceUsername; set_value := set_SourceUsername |};
  {| title := "Enter your forge domain";
     prompt := "Forge domain (leave empty for default)...";
     envKey := "SRC_DOMAIN"; value := SourceDomain; set_value := set_SourceDomain |};
  {| title := "Enter your forge token"; prompt := "Forge token...";
     envKey := "SRC_TOKEN"; value := SourceToken; set_value := set_SourceToken |}
].

(** Lines 43-52: the loop over [fields]. [Input_Run title prompt current] is
    [huh.NewInput().Title(..).Prompt(..).Value(ptr).Run()]: the error, and
    what the input leaves behind the pointer. The result is the error, the
    [Forge] and [envVars]. *)
Fixpoint SourceAuth_collect (Input_Run : string -> string -> string -> option error * string)
    (fields : list Field) (forge : Forge) (envVars : gmap string string)
    : option error * Forge * gmap string string :=
  match fields with
  | [] => (None, forge, envVars)
  | field :: rest =>
      let '(err, typed) := Input_Run (title field) (prompt field) (value field forge) in
      let forge' := set_value field typed forge in
      match err with
      | Some e => (Some ("input failed: " +:+ e), forge', envVars)
      | None =>
          SourceAuth_collect Input_Run rest forge'
            (<[envKey field := value field forge']> envVars)
      end
  end.

(** [&Forge{}] *)
Definition Forge_zero : Forge := {|
  SourceType := ""; SourceUsername := ""; SourceToken := ""; SourceDomain := "";
  TargetType := ""; TargetUsername := ""; TargetToken := ""; TargetDomain := "";
  MakePrivate := false; EnableMirror := false |}.

Section Writer.

(** [godotenv.Read(".env")] on a file with the given text: the map it
    returns; the caller drops its error. The library is not part of the
    repository, so it is any function from the text. *)
Variable godotenv_Read : string -> gmap string string.

(** The order in which the loop of lines 121-125 visits the entries of the
    map; Go leaves it open, so it is any function from the map. *)
Variable range_order : gmap string string -> list (string * string).

(** Lines 103-106: the variables already in [.env]. *)
Definition existing (fs : Files) : gmap string string :=
  match dotenv fs with
  | Some text => godotenv_Read text
  | None => ∅
  end.

(** The lines the loop of lines 121-125 writes when no write fails. *)
Definition written (vars : gmap string string) (fs : Files) : list string :=
  map line (range_order (merge vars (existing fs))).

(** [func writeEnvFile(vars map[string]string) error]: the error, what is
    printed, and the files afterwards. Opening truncates the file, so a
    write that fails leaves the lines written before it and nothing else. *)
Definition writeEnvFile (vars : gmap string string) (fs : Files)
    : option error * list string * Files :=
  let existingVars := existing fs in
  let existingVars := merge vars existingVars in
  match open_error fs with
  | Some err => (Some ("failed to open .env file: " +:+ err), [], fs)
  | None =>
      let lines := map line (range_order existingVars) in
      let failing :=
        match write_error fs with
        | Some (n, err) => if Nat.ltb n (length lines) then Some (n, err) else None
        | None => None
        end in
      match failing with
      | Some (n, err) =>
          (Some ("failed to write to .env: " +:+ err), [],
           {| dotenv := Some (text_of (take n lines));
              open_error := open_error fs; write_error := write_error fs |})
      | None =>
          (None, ["✓ Saved configuration to .env"],
           {| dotenv := Some (text_of lines);
              open_error := open_error fs; write_error := write_error fs |})
      end
  end.

(** [func SourceAuth(forge *Forge) error] *)
Definition SourceAuth (Input_Run : string -> string -> string -> option error * string)
    (forge : Forge) (fs : Files) : option error * list string * Forge * Files :=
  match SourceAuth_collect Input_Run SourceAuth_fields forge ∅ with
  | (Some err, forge', _) => (Some err, [], forge', fs)
  | (None, forge', envVars) =>
      let '(err, out, fs') := writeEnvFile envVars fs in
      (err, out, forge', fs')
  end.

(** [func SourceAuthWithForm(forge *Forge) error], with [form_Run] for the
    form of lines 60-83. *)
Definition SourceAuthWithForm (form_Run : Forge -> option error * Forge)
    (forge : Forge) (fs : Files) : option error * list string * Forge * Files :=
  match form_Run forge with
  | (Some err, forge') => (Some ("form failed: " +:+ err), [], forge', fs)
  | (None, forge') =>
      let '(err, out, fs') := writeEnvFile (SourceAuthWithForm_envVars forge') fs in
      (err, out, forge', fs')
  end.

(** [func CompleteAuth(forge *Forge) error]. [form_Run] is the form of lines
    133-200: it writes the answers into the fields of [forge] or fails. The
    result is the error, the output, the [Forge] behind the pointer and the
    files. *)
Definition CompleteAuth (form_Run : Forge -> option error * Forge)
    (forge : Forge) (fs : Files) : option error * list string * Forge * Files :=
  match form_Run forge with
  | (Some err, forge') => (Some ("form failed: " +:+ err), [], forge', fs)
  | (None, forge') =>
      let '(err, out, fs') := writeEnvFile (CompleteAuth_envVars forge') fs in
      (err, out, forge', fs')
  end.

(** [func main()], lines 223-234: the exit status, the lines on standard
    output, the lines on standard error, and the files. *)
Definition main (form_Run : Forge -> option error * Forge) (fs : Files)
    : nat * list string * list string * Files :=
  match CompleteAuth form_Run Forge_zero fs with
  | (Some err, out, _, fs') => (1, out, ["Authentication failed: " +:+ err], fs')
  | (None, out, forge, fs') =>
      (0,
       out ++ [""; "✓ Configuration complete!";
               "Source: " +:+ SourceType forge +:+ " (" +:+ SourceUsername forge +:+ ")";
               "Target: " +:+ TargetType forge +:+ " (" +:+ TargetUsername forge +:+ ")"],
       [], fs')
  end.

(** [godotenv.Read] gets back from the lines written for [m] the map [m]
    itself. It does for plain values; it does not for a value with a blank
    at either end, a [" #"], a quote, a ["$"] or a line break in it. *)
Definition reads_back (m : gmap string string) : Prop :=
  godotenv_Read (text_of (map line (range_order m))) = m.

(** The loop visits every entry of the map once. *)
Definition visits_each_once : Prop :=
  forall m, Permutation (range_order m) (map_to_list m).

End Writer.

End auth_ref.

(** The environment of an orchestrator that is started with the variables
    [godotenv] loads from [.env] and no others. *)
Definition dotenv_environment (godotenv_Read : string -> gmap string string)
    (fs : auth_ref.Files) : gmap string string :=
  auth_ref.existing godotenv_Read fs.

(* ====================================================================== *)
(** * Scripted forges for concrete runs *)
(* ====================================================================== *)

Module scripted.
Import ref.

(** The target forge is the list of HTTP statuses it will answer with, in
    order. [MigrateRepo] sends one request and succeeds on 201 Created;
    [FetchRepos] answers with a fixed list. *)
Definition client (repos : list Repository) : ForgeClient (list nat) := {|
  FetchRepos := fun _ w => ((repos, None), w);
  MigrateRepo := fun _ _ w =>
    match w with
    | [] => (Some "connection refused", [])
    | status :: w' =>
        (if Nat.eqb status 201 then None
         else Some ("unexpected status " +:+ pretty status), w')
    end
|}.

(** A source forge whose listing fails. *)
Definition failing_client (err : error) : ForgeClient (list nat) := {|
  FetchRepos := fun _ w => (([], Some err), w);
  MigrateRepo := fun _ _ w => (None, w)
|}.

(** A [validateConfig] that accepts every configuration. *)
Definition accept : Config -> option error := fun _ => None.

Definition repoA : Repository :=
  {| Name := "repoA"; CloneURL := "https://github.com/alice/repoA.git"; SSHURL := "" |}.
Definition repoB : Repository :=
  {| Name := "repoB"; CloneURL := "https://github.com/alice/repoB.git"; SSHURL := "" |}.
Definition unnamed : Repository :=
  {| Name := ""; CloneURL := ""; SSHURL := "" |}.

(** The environment of the scenario of the spec: alice, github to gitea. *)
Definition alice_env : gmap string string :=
  list_to_map [
    ("SOURCE_USERNAME", "alice"); ("SOURCE_TOKEN", "s3cret");
    ("TARGET_DOMAIN", "git.example.com"); ("TARGET_USERNAME", "alice");
    ("TARGET_TOKEN", "t0ken")
  ].

Definition run (repos : list Repository) (env : gmap string string) (w : list nat) :=
  main accept (client repos) (client repos) (client repos) env w.

(** A GitHub account with [n] repositories. *)
Definition listing (n : nat) : list GitHubRepo :=
  map (fun i =>
         {| gh_Name := "repo" +:+ pretty i;
            gh_HTMLURL := "https://github.com/alice/repo" +:+ pretty i;
            gh_CloneURL := "https://github.com/alice/repo" +:+ pretty i +:+ ".git" |})
      (seq 0 n).

(** A GitHub that serves [all] in pages of the requested size and gives no
    other hint that a page is the last. It knows the page from the URL. *)
Definition github (config : Config) (all : list GitHubRepo)
    : Request -> unit -> (Response + error) * unit :=
  fun req w =>
    match find (fun page => String.eqb (URL req) (page_url config page))
               (seq 1 (S (length all / per_page))) with
    | Some page =>
        (inl {| StatusCode := 200; Body := Some (page_of all page); NoNextPage := false |}, w)
    | None => (inr "404 page not found", w)
    end.

(** [http.NewRequest] with URLs that all parse. *)
Definition new_request_ok : string -> string -> option error := fun _ _ => None.

(** What alice answers in the form of [CompleteAuth], the [&Forge{}] it
    starts from, and a directory without [.env]. *)
Definition answers : auth_ref.Forge := {|
  auth_ref.SourceType := "gitlab";
  auth_ref.SourceUsername := "alice";
  auth_ref.SourceToken := "s3cret";
  auth_ref.SourceDomain := "gitlab.com";
  auth_ref.TargetType := "forgejo";
  auth_ref.TargetUsername := "alice";
  auth_ref.TargetToken := "t0ken";
  auth_ref.TargetDomain := "git.example.com";
  auth_ref.MakePrivate := false;
  auth_ref.EnableMirror := true
|}.

(** The same answers with a target token that has a blank and a [#] in it. *)
Definition commented : auth_ref.Forge := {|
  auth_ref.SourceType := "gitlab";
  auth_ref.SourceUsername := "alice";
  auth_ref.SourceToken := "s3cret";
  auth_ref.SourceDomain := "gitlab.com";
  auth_ref.TargetType := "forgejo";
  auth_ref.TargetUsername := "alice";
  auth_ref.TargetToken := "a b #c";
  auth_ref.TargetDomain := "git.example.com";
  auth_ref.MakePrivate := false;
  auth_ref.EnableMirror := true
|}.

Definition blank : auth_ref.Forge := {|
  auth_ref.SourceType := "";
  auth_ref.SourceUsername := "";
  auth_ref.SourceToken := "";
  auth_ref.SourceDomain := "";
  auth_ref.TargetType := "";
  auth_ref.TargetUsername := "";
  auth_ref.TargetToken := "";
  auth_ref.TargetDomain := "";
  auth_ref.MakePrivate := false;
  auth_ref.EnableMirror := false
|}.

Definition form (filled : auth_ref.Forge) : auth_ref.Forge -> option error * auth_ref.Forge :=
  fun _ => (None, filled).

Definition no_files : auth_ref.Files :=
  {| auth_ref.dotenv := None; auth_ref.open_error := None; auth_ref.write_error := None |}.

(** A user who answers every prompt of [SourceAuth] by its title. *)
Definition typing : string -> string -> string -> option error * string :=
  fun title _ current =>
    if String.eqb title "Enter your Git forge type" then (None, "gitlab")
    else if String.eqb title "Enter your forge username" then (None, "alice")
    else if String.eqb title "Enter your forge domain" then (None, "gitlab.com")
    else if String.eqb title "Enter your forge token" then (None, "s3cret")
    else (Some "user aborted", current).

(** A user who gives up at the prompt for the domain. *)
Definition giving_up : string -> string -> string -> option error * string :=
  fun title _ current =>
    if String.eqb title "Enter your forge domain" then (Some "user aborted", current)
    else typing title "" current.

(** The text of a [.env] written by hand for the orchestrator. *)
Definition by_hand_text : string :=
  "SOURCE_USERNAME=alice" +:+ LF +:+ "SOURCE_TOKEN=s3cret" +:+ LF
  +:+ "TARGET_DOMAIN=git.example.com" +:+ LF +:+ "TARGET_USERNAME=alice" +:+ LF
  +:+ "TARGET_TOKEN=t0ken" +:+ LF.

Definition by_hand : auth_ref.Files :=
  {| auth_ref.dotenv := Some by_hand_text; auth_ref.open_error := None;
     auth_ref.write_error := None |}.

(** A directory in which [.env] cannot be opened for writing. *)
Definition read_only : auth_ref.Files :=
  {| auth_ref.dotenv := Some by_hand_text;
     auth_ref.open_error := Some "permission denied"; auth_ref.write_error := None |}.


(** ** A reader for plain [.env] files

    What [godotenv] does with lines of the form [key=value] that have no
    quotes, no [export], no [$] and no comment line: the key is what stands
    before the first [=], the value is what stands after it, cut where a
    blank is followed by [#], with the blanks at both ends removed. A line
    without [=] is skipped; of two lines with one key the later wins. *)

Fixpoint lines_of (text : string) : list string :=
  match text with
  | EmptyString => [EmptyString]
  | String c rest =>
      if Ascii.eqb c (ascii_of_nat 10) then EmptyString :: lines_of rest
      else match lines_of rest with
           | l :: ls => String c l :: ls
           | [] => [String c EmptyString]
           end
  end.

Fixpoint key_value (l : string) : option (string * string) :=
  match l with
  | EmptyString => None
  | String c rest =>
      if Ascii.eqb c "=" then Some (EmptyString, rest)
      else match key_value rest with
           | Some (k, v) => Some (String c k, v)
           | None => None
           end
  end.

Fixpoint uncomment (v : string) : string :=
  match v with
  | EmptyString => EmptyString
  | String c rest =>
      if Ascii.eqb c " " && String.prefix "#" rest then EmptyString
      else String c (uncomment rest)
  end.

Fixpoint strip_left (v : string) : string :=
  match v with
  | String c rest => if Ascii.eqb c " " then strip_left rest else v
  | EmptyString => EmptyString
  end.

Definition strip (v : string) : string :=
  String.rev (strip_left (String.rev (strip_left v))).

Definition godotenv (text : string) : gmap string string :=
  fold_left
    (fun m l =>
       match key_value l with
       | Some (k, v) => <[strip k := strip (uncomment v)]> m
       | None => m
       end)
    (lines_of text) ∅.

(** The loop over a map in the order of [map_to_list]. *)
Definition in_order : gmap string string -> list (string * string) := map_to_list.

(** ** A [validateConfig] after the spec

    Modelled from the spec: "validate Configuration (kinds resolvable,
    required credentials present for both source and target)", with the
    kinds of the data model: github, gitlab, gitea, forgejo for the source,
    gitea, forgejo, gitlab for the target. *)
Definition validate : Config -> option error := fun config =>
  if negb (bool_decide (SourceType config ∈ source_kinds)) then
    Some ("unknown source forge type: " +:+ SourceType config)
  else if negb (bool_decide (TargetType config ∈ target_kinds)) then
    Some ("unknown target forge type: " +:+ TargetType config)
  else if String.eqb (SourceUsername config) "" || String.eqb (SourceToken config) "" then
    Some "source credentials are required"
  else if String.eqb (TargetUsername config) "" || String.eqb (TargetToken config) ""
          || String.eqb (TargetDomain config) "" then
    Some "target credentials are required"
  else None.

End scripted.

(* ====================================================================== *)
(** * Properties *)
(* ====================================================================== *)

Import ref.

(** ** Configuration from the environment *)

Lemma getEnv_set (env : gmap string string) (key d v : string) :
  getEnv (<[key:=v]> env) key d = v.
Proof. unfold getEnv. by rewrite lookup_insert_eq. Qed.

Lemma getEnv_unset (env : gmap string string) (key d : string) :
  env !! key = None -> getEnv env key d = d.
Proof. unfold getEnv. by intros ->. Qed.

Lemma eqb_true_iff (s : string) : String.eqb s "true" = true <-> s = "true".
Proof. apply String.eqb_eq. Qed.

Lemma eqb_false_iff (s : string) : String.eqb s "true" = false <-> s <> "true".
Proof. apply String.eqb_neq. Qed.

(** C8: a boolean field of the configuration is true exactly when the value
    of its variable (MAKE_PRIVATE, ENABLE_WIKI, ENABLE_MIRROR) is the literal
    string "true"; every other value gives false. First for the string that
    any lookup hands to the [Config] literal, then for a variable that is set
    to [s] in the environment. *)
Theorem C8_booleans_from_literal_true :
  (forall lookup : string -> string -> string,
     (MakePrivate (main_config lookup) = true <-> lookup "MAKE_PRIVATE" "true" = "true") /\
     (EnableWiki (main_config lookup) = true <-> lookup "ENABLE_WIKI" "true" = "true") /\
     (EnableMirror (main_config lookup) = true <-> lookup "ENABLE_MIRROR" "false" = "true")) /\
  (forall (env : gmap string string) (s : string),
     (MakePrivate (main_config (getEnv (<["MAKE_PRIVATE":=s]> env))) = true <-> s = "true") /\
     (EnableWiki (main_config (getEnv (<["ENABLE_WIKI":=s]> env))) = true <-> s = "true") /\
     (EnableMirror (main_config (getEnv (<["ENABLE_MIRROR":=s]> env))) = true <-> s = "true") /\
     (s <> "true" ->
        MakePrivate (main_config (getEnv (<["MAKE_PRIVATE":=s]> env))) = false /\
        EnableWiki (main_config (getEnv (<["ENABLE_WIKI":=s]> env))) = false /\
        EnableMirror (main_config (getEnv (<["ENABLE_MIRROR":=s]> env))) = false)).
Proof.
  split.
  - intros lookup. cbn [main_config MakePrivate EnableWiki EnableMirror].
    repeat split; intros H; first [ apply eqb_true_iff in H | apply eqb_true_iff ]; exact H.
  - intros env s. cbn [main_config MakePrivate EnableWiki EnableMirror].
    rewrite !getEnv_set.
    split; [apply eqb_true_iff|]. split; [apply eqb_true_iff|]. split; [apply eqb_true_iff|].
    intros Hs. apply eqb_false_iff in Hs. auto.
Qed.

(** ** Traces *)

Lemma migrate_calls_app (t1 t2 : list Event) :
  migrate_calls (t1 ++ t2) = migrate_calls t1 ++ migrate_calls t2.
Proof.
  induction t1 as [|e t1 IH]; [reflexivity|].
  destruct e; simpl; rewrite IH; reflexivity.
Qed.

Lemma migrate_configs_app (t1 t2 : list Event) :
  migrate_configs (t1 ++ t2) = migrate_configs t1 ++ migrate_configs t2.
Proof.
  induction t1 as [|e t1 IH]; [reflexivity|].
  destruct e; simpl; rewrite IH; reflexivity.
Qed.

Lemma interface_calls_app (t1 t2 : list Event) :
  interface_calls (t1 ++ t2) = interface_calls t1 + interface_calls t2.
Proof.
  induction t1 as [|e t1 IH]; [reflexivity|].
  destruct e; simpl; rewrite IH; reflexivity.
Qed.

(** ** The migration loop *)

Section Loop.

Context {World : Type}.
Variable targetClient : ForgeClient World.
Variable config : Config.

Lemma migrate_one_run (repo : Repository) (w : World) :
  migrate_one targetClient config repo w =
    (Done tt,
     [Stdout ("Migrating " +:+ Name repo +:+ "..." +:+ LF);
      CallMigrateRepo config repo;
      report_of repo (fst (MigrateRepo targetClient config repo w))],
     snd (MigrateRepo targetClient config repo w)).
Proof.
  unfold migrate_one, pbind, call_MigrateRepo, fmt_Printf, log_Printf, report_of.
  destruct (MigrateRepo targetClient config repo w) as [[e|] w']; reflexivity.
Qed.

Lemma for_range_cons (repo : Repository) (repos : list Repository) (w : World) :
  for_range (repo :: repos) (migrate_one targetClient config) w =
    let w1 := snd (MigrateRepo targetClient config repo w) in
    let rest := for_range repos (migrate_one targetClient config) w1 in
    (outcome_of rest,
     [Stdout ("Migrating " +:+ Name repo +:+ "..." +:+ LF);
      CallMigrateRepo config repo;
      report_of repo (fst (MigrateRepo targetClient config repo w))] ++ trace_of rest,
     world_of rest).
Proof.
  cbn [for_range]. unfold pbind at 1. rewrite migrate_one_run.
  cbv zeta.
  destruct (for_range repos _ _) as [[o t] w2]. reflexivity.
Qed.

(** The loop never ends the process, whatever [MigrateRepo] returns. *)
Lemma for_range_done (repos : list Repository) (w : World) :
  outcome_of (for_range repos (migrate_one targetClient config) w) = Done tt.
Proof.
  revert w. induction repos as [|repo repos IH]; intros w; [reflexivity|].
  rewrite for_range_cons. cbn. apply IH.
Qed.

(** [MigrateRepo] is called on the elements of the list, one call each, in
    the order of the list. *)
Lemma for_range_calls (repos : list Repository) (w : World) :
  migrate_calls (trace_of (for_range repos (migrate_one targetClient config) w)) = repos.
Proof.
  revert w. induction repos as [|repo repos IH]; intros w; [reflexivity|].
  rewrite for_range_cons. cbn. f_equal.
  unfold report_of. destruct (fst _); cbn; apply IH.
Qed.

Lemma for_range_configs (repos : list Repository) (w : World) :
  migrate_configs (trace_of (for_range repos (migrate_one targetClient config) w))
  = map (fun _ => config) repos.
Proof.
  revert w. induction repos as [|repo repos IH]; intros w; [reflexivity|].
  rewrite for_range_cons. cbn. f_equal.
  unfold report_of. destruct (fst _); cbn; apply IH.
Qed.

(** The loop over [pre ++ repos] is the loop over [pre] followed by the
    loop over [repos] in the world the first one leaves. *)
Lemma for_range_app (pre repos : list Repository) (w : World) :
  for_range (pre ++ repos) (migrate_one targetClient config) w =
    let first := for_range pre (migrate_one targetClient config) w in
    let rest := for_range repos (migrate_one targetClient config) (world_of first) in
    (outcome_of rest, trace_of first ++ trace_of rest, world_of rest).
Proof.
  revert w. induction pre as [|r pre IH]; intros w.
  - cbn. destruct (for_range repos _ w) as [[o t] w']. reflexivity.
  - rewrite <- app_comm_cons, !for_range_cons. cbv zeta. rewrite IH. cbn.
    reflexivity.
Qed.

(** A failed call is reported as failed, a successful one as migrated. *)
Lemma for_range_reports (pre post : list Repository) (repo : Repository) (w : World) :
  let w1 := world_of (for_range pre (migrate_one targetClient config) w) in
  In (report_of repo (fst (MigrateRepo targetClient config repo w1)))
     (trace_of (for_range (pre ++ repo :: post) (migrate_one targetClient config) w)).
Proof.
  cbv zeta. rewrite for_range_app. cbv zeta. unfold trace_of at 1. cbn [fst snd].
  rewrite for_range_cons. cbv zeta. unfold trace_of at 2. cbn [fst snd].
  apply in_or_app. right. cbn. right. right. left. reflexivity.
Qed.

End Loop.

(** ** The run *)

Section Run.

Context {World : Type}.
Variable validateConfig : Config -> option error.
Variables GitHubClient GitLabClient GiteaClient : ForgeClient World.

Abbreviation getForgeClient := (getForgeClient GitHubClient GitLabClient GiteaClient).
Abbreviation main_run := (main_run validateConfig GitHubClient GitLabClient GiteaClient).

(** [getForgeClient] is one lookup for source and target alike: it knows
    the four kinds and no other. *)
Lemma getForgeClient_None (forgeType : string) :
  getForgeClient forgeType = None <-> ~ In forgeType source_kinds.
Proof.
  unfold ref.getForgeClient, source_kinds. cbn [In].
  destruct (String.eqb_spec forgeType "github");
    destruct (String.eqb_spec forgeType "gitlab");
    destruct (String.eqb_spec forgeType "gitea");
    destruct (String.eqb_spec forgeType "forgejo"); cbn;
    split; intros H; try discriminate; try reflexivity;
    try (exfalso; apply H; auto; fail); intuition congruence.
Qed.

(** A run that gets past validation and lookup and whose listing succeeds
    goes through the whole loop and returns. *)
Lemma main_run_fetched (config : Config) (w w1 : World)
    (sourceClient targetClient : ForgeClient World) (repos : list Repository) :
  validateConfig config = None ->
  getForgeClient (SourceType config) = Some sourceClient ->
  getForgeClient (TargetType config) = Some targetClient ->
  FetchRepos sourceClient config w = ((repos, None), w1) ->
  main_run config w =
    (Done tt,
     CallFetchRepos config
     :: Stdout ("Found " +:+ pretty (length repos) +:+ " repositories on "
                +:+ SourceDomain config +:+ LF)
     :: trace_of (for_range repos (migrate_one targetClient config) w1),
     world_of (for_range repos (migrate_one targetClient config) w1)).
Proof.
  intros Hv Hs Ht Hf.
  pose proof (for_range_done targetClient config repos w1) as Hd.
  unfold ref.main_run, pbind, call_FetchRepos, pret, fmt_Printf.
  rewrite Hv, Hs, Ht, Hf. cbn.
  destruct (for_range repos _ w1) as [[o t] w2]. cbn in Hd. subst o.
  reflexivity.
Qed.

(** A run whose listing fails ends right after the call. *)
Lemma main_run_fetch_failed (config : Config) (w w1 : World)
    (sourceClient targetClient : ForgeClient World) (repos : list Repository)
    (err : error) :
  validateConfig config = None ->
  getForgeClient (SourceType config) = Some sourceClient ->
  getForgeClient (TargetType config) = Some targetClient ->
  FetchRepos sourceClient config w = ((repos, Some err), w1) ->
  main_run config w =
    (Exited 1,
     [CallFetchRepos config;
      Stderr ("Failed to fetch repos from " +:+ SourceType config +:+ ": " +:+ err)],
     w1).
Proof.
  intros Hv Hs Ht Hf.
  unfold ref.main_run, pbind, call_FetchRepos, pret, log_Fatalf.
  rewrite Hv, Hs, Ht, Hf. reflexivity.
Qed.

(** A run that fails validation or lookup prints one line and exits, the
    forges untouched. *)
Lemma main_run_rejected (config : Config) (w : World) :
  validateConfig config <> None \/
  getForgeClient (SourceType config) = None \/
  getForgeClient (TargetType config) = None ->
  exists msg, main_run config w = (Exited 1, [Stderr msg], w).
Proof.
  intros H.
  unfold ref.main_run, pbind, pret, log_Fatalf.
  destruct (validateConfig config) as [e|]; [eexists; reflexivity|].
  destruct (getForgeClient (SourceType config)) as [sc|]; [|eexists; reflexivity].
  destruct (getForgeClient (TargetType config)) as [tc|]; [|eexists; reflexivity].
  destruct H as [H|[H|H]]; congruence.
Qed.

(** Every call of [MigrateRepo] in a run is given the configuration of the
    run. *)
Lemma main_run_configs (config : Config) (w : World) :
  Forall (fun c => c = config) (migrate_configs (trace_of (main_run config w))).
Proof.
  destruct (validateConfig config) as [e|] eqn:Hv.
  { destruct (main_run_rejected config w) as [msg ->]; [left; congruence|]. constructor. }
  destruct (getForgeClient (SourceType config)) as [sc|] eqn:Hs.
  2:{ destruct (main_run_rejected config w) as [msg ->]; [auto|]. constructor. }
  destruct (getForgeClient (TargetType config)) as [tc|] eqn:Ht.
  2:{ destruct (main_run_rejected config w) as [msg ->]; [auto|]. constructor. }
  destruct (FetchRepos sc config w) as [[repos [err|]] w1] eqn:Hf.
  - rewrite (main_run_fetch_failed _ _ _ _ _ _ _ Hv Hs Ht Hf). constructor.
  - rewrite (main_run_fetched _ _ _ _ _ _ Hv Hs Ht Hf). cbn.
    rewrite for_range_configs. clear. induction repos; constructor; auto.
Qed.

End Run.

(** ** What the orchestrator guarantees *)

Section Orchestration.

Context {World : Type}.
Variable validateConfig : Config -> option error.
Variables GitHubClient GitLabClient GiteaClient : ForgeClient World.

Abbreviation getForgeClient := (getForgeClient GitHubClient GitLabClient GiteaClient).
Abbreviation main_run := (main_run validateConfig GitHubClient GitLabClient GiteaClient).

Variables (config : Config) (w w1 : World).
Variables sourceClient targetClient : ForgeClient World.
Variable repos : list Repository.

(** C1: when [FetchRepos] returns K repositories, [MigrateRepo] is
    attempted exactly K times, and an attempt that fails does not keep the
    repositories after it from being attempted: the attempts that follow
    the failed one are exactly the repositories that follow it. *)
Theorem C1_one_attempt_per_repository :
  validateConfig config = None ->
  getForgeClient (SourceType config) = Some sourceClient ->
  getForgeClient (TargetType config) = Some targetClient ->
  FetchRepos sourceClient config w = ((repos, None), w1) ->
  let t := trace_of (main_run config w) in
  length (migrate_calls t) = length repos /\
  forall (pre post : list Repository) (repo : Repository) (e : error),
    repos = pre ++ repo :: post ->
    fst (MigrateRepo targetClient config repo
           (world_of (for_range pre (migrate_one targetClient config) w1))) = Some e ->
    In (report_of repo (Some e)) t /\
    drop (S (length pre)) (migrate_calls t) = post.
Proof.
  intros Hv Hs Ht Hf t.
  assert (Hcalls : migrate_calls t = repos).
  { subst t. rewrite (main_run_fetched _ _ _ _ _ _ _ _ _ _ Hv Hs Ht Hf).
    cbn. apply for_range_calls. }
  split; [by rewrite Hcalls|].
  intros pre post repo e -> He. split.
  - pose proof (for_range_reports targetClient config pre post repo w1) as Hr.
    cbv zeta in Hr. rewrite He in Hr.
    subst t. rewrite (main_run_fetched _ _ _ _ _ _ _ _ _ _ Hv Hs Ht Hf).
    unfold trace_of at 1. cbn [fst snd]. right. right. exact Hr.
  - rewrite Hcalls.
    replace (S (length pre)) with (length (pre ++ [repo])) by (rewrite length_app; cbn; lia).
    rewrite (cons_middle repo pre post), app_assoc. apply drop_app_length.
Qed.

(** C7: [MigrateRepo] is invoked on the repositories in the order in which
    [FetchRepos] returned them. *)
Theorem C7_processing_order_is_fetch_order :
  validateConfig config = None ->
  getForgeClient (SourceType config) = Some sourceClient ->
  getForgeClient (TargetType config) = Some targetClient ->
  FetchRepos sourceClient config w = ((repos, None), w1) ->
  migrate_calls (trace_of (main_run config w)) = repos.
Proof.
  intros Hv Hs Ht Hf.
  rewrite (main_run_fetched _ _ _ _ _ _ _ _ _ _ Hv Hs Ht Hf).
  cbn. apply for_range_calls.
Qed.

(** C6: when [FetchRepos] fails the run ends fatally (exit status 1, after
    one line on standard error) and [MigrateRepo] is never called, whatever
    list came back with the error. *)
Theorem C6_fetch_failure_is_fatal (err : error) :
  validateConfig config = None ->
  getForgeClient (SourceType config) = Some sourceClient ->
  getForgeClient (TargetType config) = Some targetClient ->
  FetchRepos sourceClient config w = ((repos, Some err), w1) ->
  outcome_of (main_run config w) = Exited 1 /\
  trace_of (main_run config w) =
    [CallFetchRepos config;
     Stderr ("Failed to fetch repos from " +:+ SourceType config +:+ ": " +:+ err)] /\
  migrate_calls (trace_of (main_run config w)) = [].
Proof.
  intros Hv Hs Ht Hf.
  rewrite (main_run_fetch_failed _ _ _ _ _ _ _ _ _ _ _ Hv Hs Ht Hf).
  repeat split.
Qed.

(** C3: a configuration whose source kind is not one of github, gitlab,
    gitea, forgejo, or whose target kind is not one of gitea, forgejo,
    gitlab, ends the run with a fatal error, one line on standard error,
    before any call of [FetchRepos] or [MigrateRepo], the forges untouched.
    For the source kind [getForgeClient] sees to it. A target kind of github
    gets past [getForgeClient]; what stops it is [validateConfig], which runs
    first and is taken to reject an unknown target kind, as the spec has
    it. *)
Theorem C3_unresolvable_kind_fails_fast :
  rejects_unknown_target validateConfig ->
  ~ In (SourceType config) source_kinds \/ ~ In (TargetType config) target_kinds ->
  outcome_of (main_run config w) = Exited 1 /\
  (exists msg, trace_of (main_run config w) = [Stderr msg]) /\
  interface_calls (trace_of (main_run config w)) = 0 /\
  world_of (main_run config w) = w.
Proof.
  intros Hvalidate H.
  destruct (main_run_rejected validateConfig GitHubClient GitLabClient GiteaClient config w)
    as [msg ->].
  - destruct H as [H|H].
    + right. left. by apply getForgeClient_None.
    + left. by apply Hvalidate.
  - repeat split. by exists msg.
Qed.

(** X17: whatever [validateConfig] does, a configuration whose source or
    target kind is not one of github, gitlab, gitea, forgejo ends the run
    fatally, with no call of [FetchRepos] or [MigrateRepo] and the forges
    untouched: [getForgeClient] is one lookup for source and target alike. *)
Theorem unknown_kind_is_fatal :
  ~ In (SourceType config) source_kinds \/ ~ In (TargetType config) source_kinds ->
  outcome_of (main_run config w) = Exited 1 /\
  interface_calls (trace_of (main_run config w)) = 0 /\
  world_of (main_run config w) = w.
Proof.
  intros H.
  destruct (main_run_rejected validateConfig GitHubClient GitLabClient GiteaClient config w)
    as [msg ->].
  - right. destruct H as [H|H]; [left|right]; by apply getForgeClient_None.
  - repeat split.
Qed.

(** C4, amended: a repository whose [MigrateRepo] call fails, with whatever
    error, is not tried again: the failure is logged, the call after it is
    the one for the next repository, and the run makes one call for each
    repository of the list. *)
Theorem C4_failed_migration_not_retried :
  validateConfig config = None ->
  getForgeClient (SourceType config) = Some sourceClient ->
  getForgeClient (TargetType config) = Some targetClient ->
  FetchRepos sourceClient config w = ((repos, None), w1) ->
  forall (pre post : list Repository) (repo : Repository) (e : error),
    repos = pre ++ repo :: post ->
    fst (MigrateRepo targetClient config repo
           (world_of (for_range pre (migrate_one targetClient config) w1))) = Some e ->
    let t := trace_of (main_run config w) in
    In (Stderr ("Failed to migrate " +:+ Name repo +:+ ": " +:+ e)) t /\
    migrate_calls t !! length pre = Some repo /\
    migrate_calls t !! S (length pre) = head post /\
    length (migrate_calls t) = length repos.
Proof.
  intros Hv Hs Ht Hf pre post repo e -> He t.
  assert (Hcalls : migrate_calls t = pre ++ repo :: post).
  { subst t. rewrite (main_run_fetched _ _ _ _ _ _ _ _ _ _ Hv Hs Ht Hf).
    cbn. apply for_range_calls. }
  split.
  - pose proof (for_range_reports targetClient config pre post repo w1) as Hr.
    cbv zeta in Hr. rewrite He in Hr.
    subst t. rewrite (main_run_fetched _ _ _ _ _ _ _ _ _ _ Hv Hs Ht Hf).
    unfold trace_of at 1. cbn [fst snd]. right. right. exact Hr.
  - rewrite Hcalls. split; [|split; [|reflexivity]].
    + by rewrite list_lookup_middle.
    + rewrite (cons_middle repo pre post), app_assoc.
      replace (S (length pre)) with (length (pre ++ [repo]) + 0)
        by (rewrite length_app; cbn; lia).
      rewrite lookup_app_r by lia.
      replace (length (pre ++ [repo]) + 0 - length (pre ++ [repo])) with 0 by lia.
      by destruct post.
Qed.

(** C5, amended: the orchestrator does not validate the repositories it
    fetched: every one of them, also one with an empty name or an empty
    clone URL, is handed to [MigrateRepo], once, at its position in the
    list. The calls are as many as the repositories, and the call at each
    position is the one for the repository at that position. *)
Theorem C5_every_repository_is_submitted :
  validateConfig config = None ->
  getForgeClient (SourceType config) = Some sourceClient ->
  getForgeClient (TargetType config) = Some targetClient ->
  FetchRepos sourceClient config w = ((repos, None), w1) ->
  let t := trace_of (main_run config w) in
  length (migrate_calls t) = length repos /\
  forall (i : nat) (repo : Repository),
    repos !! i = Some repo ->
    migrate_calls t !! i = Some repo /\
    In (CallMigrateRepo config repo) t.
Proof.
  intros Hv Hs Ht Hf t.
  assert (Hcalls : migrate_calls t = repos).
  { subst t. rewrite (main_run_fetched _ _ _ _ _ _ _ _ _ _ Hv Hs Ht Hf).
    cbn. apply for_range_calls. }
  split; [by rewrite Hcalls|].
  intros i repo Hi. split; [by rewrite Hcalls|].
  apply list_elem_of_lookup_2, list_elem_of_In in Hi.
  subst t. rewrite (main_run_fetched _ _ _ _ _ _ _ _ _ _ Hv Hs Ht Hf).
  unfold trace_of at 1. cbn [fst snd]. right. right.
  apply in_split in Hi as (pre & post & ->).
  rewrite for_range_app. cbv zeta. unfold trace_of at 1. cbn [fst snd].
  apply in_or_app. right.
  rewrite for_range_cons. cbv zeta. unfold trace_of at 1. cbn [fst snd].
  right. left. reflexivity.
Qed.

End Orchestration.

(** ** Concrete runs *)

(** Where C1 applies: two repositories, the first answered 503, the second
    201. Two attempts; the failure of repoA is logged and repoB follows. *)
Lemma C1_witness :
  let t := trace_of (scripted.run [scripted.repoA; scripted.repoB] scripted.alice_env [503; 201]) in
  length (migrate_calls t) = 2 /\
  In (report_of scripted.repoA (Some "unexpected status 503")) t /\
  drop 1 (migrate_calls t) = [scripted.repoB].
Proof.
  pose (rs := [scripted.repoA; scripted.repoB]).
  destruct (C1_one_attempt_per_repository scripted.accept
              (scripted.client rs) (scripted.client rs) (scripted.client rs)
              (main_config (getEnv scripted.alice_env)) [503; 201] [503; 201]
              (scripted.client rs) (scripted.client rs) rs
              eq_refl eq_refl eq_refl eq_refl) as [Hlen Hrest].
  split; [exact Hlen|].
  exact (Hrest [] [scripted.repoB] scripted.repoA "unexpected status 503" eq_refl eq_refl).
Defined.

(** Where C7 applies: the same run; the calls are repoA, then repoB. *)
Lemma C7_witness :
  migrate_calls
    (trace_of (scripted.run [scripted.repoA; scripted.repoB] scripted.alice_env [503; 201]))
  = [scripted.repoA; scripted.repoB].
Proof.
  pose (rs := [scripted.repoA; scripted.repoB]).
  exact (C7_processing_order_is_fetch_order scripted.accept
           (scripted.client rs) (scripted.client rs) (scripted.client rs)
           (main_config (getEnv scripted.alice_env)) [503; 201] [503; 201]
           (scripted.client rs) (scripted.client rs) rs
           eq_refl eq_refl eq_refl eq_refl).
Defined.

(** Where C6 applies: the GitHub listing answers 401. *)
Lemma C6_witness :
  let r := main scripted.accept (scripted.failing_client "status 401")
             (scripted.client []) (scripted.client []) scripted.alice_env [201] in
  outcome_of r = Exited 1 /\
  trace_of r =
    [CallFetchRepos (main_config (getEnv scripted.alice_env));
     Stderr "Failed to fetch repos from github: status 401"] /\
  migrate_calls (trace_of r) = [].
Proof.
  exact (C6_fetch_failure_is_fatal scripted.accept (scripted.failing_client "status 401")
           (scripted.client []) (scripted.client [])
           (main_config (getEnv scripted.alice_env)) [201] [201]
           (scripted.failing_client "status 401") (scripted.client []) []
           "status 401" eq_refl eq_refl eq_refl eq_refl).
Defined.

(** The [validateConfig] written after the spec rejects a target kind that is
    not one of the three. *)
Lemma validate_rejects_unknown_target : rejects_unknown_target scripted.validate.
Proof.
  intros config Htarget. unfold scripted.validate.
  destruct (bool_decide (SourceType config ∈ source_kinds)); [|discriminate].
  destruct (bool_decide (TargetType config ∈ target_kinds)) eqn:Hin; [|discriminate].
  apply bool_decide_eq_true in Hin. apply list_elem_of_In in Hin. contradiction.
Qed.

(** Where C3 applies: a target kind of github, which [getForgeClient] would
    resolve, under a [validateConfig] that checks the kinds. *)
Lemma C3_witness :
  let env := <["TARGET_TYPE":="github"]> scripted.alice_env in
  let r := main scripted.validate (scripted.client [scripted.repoA])
             (scripted.client [scripted.repoA]) (scripted.client [scripted.repoA]) env [201] in
  outcome_of r = Exited 1 /\
  (exists msg, trace_of r = [Stderr msg]) /\
  interface_calls (trace_of r) = 0 /\
  world_of r = [201].
Proof.
  apply (C3_unresolvable_kind_fails_fast scripted.validate
           (scripted.client [scripted.repoA]) (scripted.client [scripted.repoA])
           (scripted.client [scripted.repoA])
           (main_config (getEnv (<["TARGET_TYPE":="github"]> scripted.alice_env))) [201]
           validate_rejects_unknown_target).
  right. vm_compute. intros [H|[H|[H|[]]]]; discriminate H.
Defined.

(** Where X17 applies: a source kind nobody knows. *)
Lemma unknown_kind_is_fatal_witness :
  let env := <["SOURCE_TYPE":="bitbucket"]> scripted.alice_env in
  let r := scripted.run [scripted.repoA] env [201] in
  outcome_of r = Exited 1 /\ interface_calls (trace_of r) = 0 /\ world_of r = [201].
Proof.
  apply (unknown_kind_is_fatal scripted.accept
           (scripted.client [scripted.repoA]) (scripted.client [scripted.repoA])
           (scripted.client [scripted.repoA])
           (main_config (getEnv (<["SOURCE_TYPE":="bitbucket"]> scripted.alice_env))) [201]).
  left. vm_compute. intros [H|[H|[H|[H|[]]]]]; discriminate H.
Defined.

(** What [getForgeClient] leaves to [validateConfig]: "github" is not a
    target kind, yet the lookup resolves it for the target as it does for
    the source, and under a [validateConfig] that accepts everything the run
    goes on to fetch and to migrate. *)
Example github_target_gets_past_lookup :
  let env := <["TARGET_TYPE":="github"]> scripted.alice_env in
  let r := scripted.run [scripted.repoA] env [201] in
  TargetType (main_config (getEnv env)) = "github" /\
  ~ In "github" target_kinds /\
  outcome_of r = Done tt /\
  interface_calls (trace_of r) = 2 /\
  migrate_calls (trace_of r) = [scripted.repoA].
Proof.
  vm_compute. repeat split.
  intros [H|[H|[H|[]]]]; discriminate H.
Qed.

(** Where the amended C4 applies: repoA answered 503, repoB answered 201. *)
Lemma C4_witness :
  let t := trace_of (scripted.run [scripted.repoA; scripted.repoB] scripted.alice_env [503; 201]) in
  In (Stderr "Failed to migrate repoA: unexpected status 503") t /\
  migrate_calls t !! 0 = Some scripted.repoA /\
  migrate_calls t !! 1 = Some scripted.repoB /\
  length (migrate_calls t) = 2.
Proof.
  pose (rs := [scripted.repoA; scripted.repoB]).
  exact (C4_failed_migration_not_retried scripted.accept
           (scripted.client rs) (scripted.client rs) (scripted.client rs)
           (main_config (getEnv scripted.alice_env)) [503; 201] [503; 201]
           (scripted.client rs) (scripted.client rs) rs
           eq_refl eq_refl eq_refl eq_refl
           [] [scripted.repoB] scripted.repoA "unexpected status 503" eq_refl eq_refl).
Defined.

(** C4 as stated fails: the target would answer 503 and then 201, but the
    run asks once. One call for repoA, logged as failed, never reported as
    migrated, and the 201 is still waiting when the run is over. *)
Lemma C4_counterexample_503_then_201 :
  let r := scripted.run [scripted.repoA] scripted.alice_env [503; 201] in
  outcome_of r = Done tt /\
  migrate_calls (trace_of r) = [scripted.repoA] /\
  In (Stderr "Failed to migrate repoA: unexpected status 503") (trace_of r) /\
  ~ In (report_of scripted.repoA None) (trace_of r) /\
  world_of r = [201].
Proof.
  vm_compute. repeat split; [auto 10|].
  intros [H|[H|[H|[H|[H|[]]]]]]; discriminate H.
Qed.

(** Where the amended C5 applies: the second repository of the listing has
    no name and no clone URL; the second call is the one for it. *)
Lemma C5_witness :
  let t := trace_of (scripted.run [scripted.repoA; scripted.unnamed] scripted.alice_env [201; 201]) in
  length (migrate_calls t) = 2 /\
  migrate_calls t !! 1 = Some scripted.unnamed /\
  In (CallMigrateRepo (main_config (getEnv scripted.alice_env)) scripted.unnamed) t.
Proof.
  pose (rs := [scripted.repoA; scripted.unnamed]).
  destruct (C5_every_repository_is_submitted scripted.accept
              (scripted.client rs) (scripted.client rs) (scripted.client rs)
              (main_config (getEnv scripted.alice_env)) [201; 201] [201; 201]
              (scripted.client rs) (scripted.client rs) rs
              eq_refl eq_refl eq_refl eq_refl) as [Hlen Hall].
  split; [exact Hlen|]. exact (Hall 1 scripted.unnamed eq_refl).
Defined.

(** C5 as stated fails: a repository whose name and clone URL are empty is
    submitted to [MigrateRepo] like any other. *)
Lemma C5_counterexample_empty_repository :
  let r := scripted.run [scripted.unnamed] scripted.alice_env [201] in
  Name scripted.unnamed = "" /\
  CloneURL scripted.unnamed = "" /\
  migrate_calls (trace_of r) = [scripted.unnamed] /\
  world_of r = [].
Proof. vm_compute. repeat split. Qed.

(** ** Defaults *)

(** The configuration of a run with nothing set. *)
Lemma main_config_empty :
  main_config (getEnv ∅) =
    {| SourceType := "github"; SourceDomain := "github.com";
       SourceUsername := ""; SourceToken := "";
       TargetType := "gitea"; TargetDomain := ""; TargetUsername := "";
       TargetToken := ""; TargetRepoOwner := "";
       MakePrivate := true; EnableWiki := true; EnableMirror := false |}.
Proof. reflexivity. Qed.

(** C10: a variable that is not set leaves its field at the default:
    SourceType "github", SourceDomain "github.com", TargetType "gitea",
    MakePrivate true, EnableWiki true, EnableMirror false. With nothing set
    at all, every [MigrateRepo] call of a run is given a configuration that
    asks for a private repository with wiki and without mirroring. *)
Theorem C10_defaults_when_unset :
  (forall env : gmap string string,
     (env !! "SOURCE_TYPE" = None -> SourceType (main_config (getEnv env)) = "github") /\
     (env !! "SOURCE_DOMAIN" = None -> SourceDomain (main_config (getEnv env)) = "github.com") /\
     (env !! "TARGET_TYPE" = None -> TargetType (main_config (getEnv env)) = "gitea") /\
     (env !! "MAKE_PRIVATE" = None -> MakePrivate (main_config (getEnv env)) = true) /\
     (env !! "ENABLE_WIKI" = None -> EnableWiki (main_config (getEnv env)) = true) /\
     (env !! "ENABLE_MIRROR" = None -> EnableMirror (main_config (getEnv env)) = false)) /\
  (forall (World : Type) (validateConfig : Config -> option error)
          (GitHubClient GitLabClient GiteaClient : ForgeClient World) (w : World),
     Forall (fun c => MakePrivate c = true /\ EnableWiki c = true /\ EnableMirror c = false)
       (migrate_configs
          (trace_of (main validateConfig GitHubClient GitLabClient GiteaClient ∅ w)))).
Proof.
  split.
  - intros env. cbn [main_config SourceType SourceDomain TargetType MakePrivate EnableWiki EnableMirror].
    repeat split; intros H; rewrite (getEnv_unset _ _ _ H); reflexivity.
  - intros World validateConfig gh gl gt w. unfold main.
    eapply Forall_impl; [apply main_run_configs|].
    intros c ->. rewrite main_config_empty. repeat split.
Qed.

(** ** From the form to the orchestrator *)

(** What the merge loop of [writeEnvFile] leaves under a key: the new value
    if there is one, the old one otherwise. *)
Lemma merge_lookup (vars existingVars : gmap string string) (k : string) :
  auth_ref.merge vars existingVars !! k =
    match vars !! k with
    | Some v => Some v
    | None => existingVars !! k
    end.
Proof.
  unfold auth_ref.merge.
  apply (map_fold_weak_ind
           (fun r (m : gmap string string) =>
              r !! k = match m !! k with Some v => Some v | None => existingVars !! k end)).
  - by rewrite lookup_empty.
  - intros i x m r Hi IH. rewrite !lookup_insert. case_decide; [done|exact IH].
Qed.

(** The three ways [writeEnvFile] can go. *)
Lemma writeEnvFile_cases godotenv_Read range_order
    (vars : gmap string string) (fs : auth_ref.Files) :
  let lines := auth_ref.written godotenv_Read range_order vars fs in
  auth_ref.writeEnvFile godotenv_Read range_order vars fs =
    match auth_ref.open_error fs with
    | Some err => (Some ("failed to open .env file: " +:+ err), [], fs)
    | None =>
        match auth_ref.write_error fs with
        | Some (n, err) =>
            if Nat.ltb n (length lines) then
              (Some ("failed to write to .env: " +:+ err), [],
               {| auth_ref.dotenv := Some (auth_ref.text_of (take n lines));
                  auth_ref.open_error := auth_ref.open_error fs;
                  auth_ref.write_error := auth_ref.write_error fs |})
            else
              (None, ["✓ Saved configuration to .env"],
               {| auth_ref.dotenv := Some (auth_ref.text_of lines);
                  auth_ref.open_error := auth_ref.open_error fs;
                  auth_ref.write_error := auth_ref.write_error fs |})
        | None =>
            (None, ["✓ Saved configuration to .env"],
             {| auth_ref.dotenv := Some (auth_ref.text_of lines);
                auth_ref.open_error := auth_ref.open_error fs;
                auth_ref.write_error := auth_ref.write_error fs |})
        end
    end.
Proof.
  cbv zeta. unfold auth_ref.writeEnvFile, auth_ref.written.
  destruct (auth_ref.open_error fs); [reflexivity|].
  destruct (auth_ref.write_error fs) as [[n err]|]; [|reflexivity].
  destruct (Nat.ltb n _); reflexivity.
Qed.

(** A write that returns no error has written every line. *)
Lemma writeEnvFile_success godotenv_Read range_order
    (vars : gmap string string) (fs fs' : auth_ref.Files) (out : list string) :
  auth_ref.writeEnvFile godotenv_Read range_order vars fs = (None, out, fs') ->
  out = ["✓ Saved configuration to .env"] /\
  auth_ref.dotenv fs' = Some (auth_ref.text_of (auth_ref.written godotenv_Read range_order vars fs)) /\
  auth_ref.open_error fs' = auth_ref.open_error fs /\
  auth_ref.write_error fs' = auth_ref.write_error fs.
Proof.
  rewrite writeEnvFile_cases. cbv zeta.
  destruct (auth_ref.open_error fs) eqn:Hopen; [discriminate|].
  destruct (auth_ref.write_error fs) as [[n err]|] eqn:Hwrite.
  - destruct (Nat.ltb n _); [discriminate|]. intros [= <- <-]. repeat split; congruence.
  - intros [= <- <-]. repeat split; congruence.
Qed.


(** When [godotenv] reads the written lines back as the map they were
    written for, the variables of [.env] after a write are the merged
    ones. *)
Lemma existing_after_write godotenv_Read range_order
    (vars : gmap string string) (fs fs' : auth_ref.Files) :
  auth_ref.dotenv fs' = Some (auth_ref.text_of (auth_ref.written godotenv_Read range_order vars fs)) ->
  auth_ref.reads_back godotenv_Read range_order
    (auth_ref.merge vars (auth_ref.existing godotenv_Read fs)) ->
  auth_ref.existing godotenv_Read fs'
  = auth_ref.merge vars (auth_ref.existing godotenv_Read fs).
Proof.
  intros Hfile Hback. unfold auth_ref.existing at 1. rewrite Hfile. exact Hback.
Qed.

Lemma Sprintf_t_true (b : bool) : String.eqb (Sprintf_t b) "true" = b.
Proof. by destruct b. Qed.

(** What the map literal of [CompleteAuth] holds under the keys the
    orchestrator reads: the target kind, domain and token and the two flags,
    and nothing for the source or for the target user name. *)
Lemma CompleteAuth_envVars_read (forge : auth_ref.Forge) :
  let vars := auth_ref.CompleteAuth_envVars forge in
  (vars !! "SOURCE_TYPE" = None /\ vars !! "SOURCE_DOMAIN" = None /\
   vars !! "SOURCE_USERNAME" = None /\ vars !! "SOURCE_TOKEN" = None /\
   vars !! "TARGET_USERNAME" = None) /\
  (vars !! "TARGET_TYPE" = Some (auth_ref.TargetType forge) /\
   vars !! "TARGET_DOMAIN" = Some (auth_ref.TargetDomain forge) /\
   vars !! "TARGET_TOKEN" = Some (auth_ref.TargetToken forge) /\
   vars !! "MAKE_PRIVATE" = Some (Sprintf_t (auth_ref.MakePrivate forge)) /\
   vars !! "ENABLE_MIRROR" = Some (Sprintf_t (auth_ref.EnableMirror forge))).
Proof. repeat split; vm_compute; reflexivity. Qed.

(** What it holds under the keys of its own. *)
Lemma CompleteAuth_envVars_written (forge : auth_ref.Forge) :
  let vars := auth_ref.CompleteAuth_envVars forge in
  vars !! "SRC_TYPE" = Some (auth_ref.SourceType forge) /\
  vars !! "SRC_USER" = Some (auth_ref.SourceUsername forge) /\
  vars !! "SRC_DOMAIN" = Some (auth_ref.SourceDomain forge) /\
  vars !! "SRC_TOKEN" = Some (auth_ref.SourceToken forge) /\
  vars !! "TARGET_USER" = Some (auth_ref.TargetUsername forge).
Proof. repeat split; vm_compute; reflexivity. Qed.

(** C9, amended: when [godotenv] reads the [.env] that [CompleteAuth] wrote
    back as it was written, the answers of the form do not reach the
    orchestrator's source fields or its target user name. [CompleteAuth]
    stores them under SRC_TYPE, SRC_USER, SRC_DOMAIN, SRC_TOKEN and
    TARGET_USER; the orchestrator reads SOURCE_TYPE, SOURCE_USERNAME,
    SOURCE_DOMAIN, SOURCE_TOKEN and TARGET_USERNAME, which the write leaves
    as they were, so that in a [.env] that did not hold them before these
    fields take the built-in defaults. The target kind, domain and token and
    the flags MakePrivate and EnableMirror arrive as entered. *)
Theorem C9_source_identity_lost_between_form_and_orchestrator
    (godotenv_Read : string -> gmap string string)
    (range_order : gmap string string -> list (string * string))
    (form_Run : auth_ref.Forge -> option error * auth_ref.Forge)
    (forge answers : auth_ref.Forge) (fs : auth_ref.Files) :
  form_Run forge = (None, answers) ->
  auth_ref.open_error fs = None ->
  auth_ref.write_error fs = None ->
  auth_ref.reads_back godotenv_Read range_order
    (auth_ref.merge (auth_ref.CompleteAuth_envVars answers)
       (auth_ref.existing godotenv_Read fs)) ->
  exists out fs',
    auth_ref.CompleteAuth godotenv_Read range_order form_Run forge fs
      = (None, out, answers, fs') /\
    let before := dotenv_environment godotenv_Read fs in
    let after := dotenv_environment godotenv_Read fs' in
    let c := main_config (getEnv after) in
    (after !! "SRC_TYPE" = Some (auth_ref.SourceType answers) /\
     after !! "SRC_USER" = Some (auth_ref.SourceUsername answers) /\
     after !! "SRC_DOMAIN" = Some (auth_ref.SourceDomain answers) /\
     after !! "SRC_TOKEN" = Some (auth_ref.SourceToken answers) /\
     after !! "TARGET_USER" = Some (auth_ref.TargetUsername answers)) /\
    (SourceType c = SourceType (main_config (getEnv before)) /\
     SourceDomain c = SourceDomain (main_config (getEnv before)) /\
     SourceUsername c = SourceUsername (main_config (getEnv before)) /\
     SourceToken c = SourceToken (main_config (getEnv before)) /\
     TargetUsername c = TargetUsername (main_config (getEnv before))) /\
    (Forall (fun k => before !! k = None)
       ["SOURCE_TYPE"; "SOURCE_DOMAIN"; "SOURCE_USERNAME"; "SOURCE_TOKEN"; "TARGET_USERNAME"] ->
     SourceType c = "github" /\ SourceDomain c = "github.com" /\
     SourceUsername c = "" /\ SourceToken c = "" /\ TargetUsername c = "") /\
    (TargetType c = auth_ref.TargetType answers /\
     TargetDomain c = auth_ref.TargetDomain answers /\
     TargetToken c = auth_ref.TargetToken answers /\
     MakePrivate c = auth_ref.MakePrivate answers /\
     EnableMirror c = auth_ref.EnableMirror answers).
Proof.
  intros Hform Hopen Hwrite Hback.
  pose proof (writeEnvFile_cases godotenv_Read range_order
                (auth_ref.CompleteAuth_envVars answers) fs) as Hrun.
  cbv zeta in Hrun. rewrite Hopen, Hwrite in Hrun.
  eexists _, _. split.
  { unfold auth_ref.CompleteAuth. rewrite Hform, Hrun. reflexivity. }
  assert (Hlook : forall k,
             dotenv_environment godotenv_Read
               {| auth_ref.dotenv :=
                    Some (auth_ref.text_of
                            (auth_ref.written godotenv_Read range_order
                               (auth_ref.CompleteAuth_envVars answers) fs));
                  auth_ref.open_error := None; auth_ref.write_error := None |} !! k
             = match auth_ref.CompleteAuth_envVars answers !! k with
               | Some v => Some v
               | None => dotenv_environment godotenv_Read fs !! k
               end).
  { intros k. unfold dotenv_environment.
    erewrite existing_after_write; [apply merge_lookup|reflexivity|exact Hback]. }
  destruct (CompleteAuth_envVars_read answers)
    as [(Hst & Hsd & Hsu & Hsk & Htu) (Htt & Htd & Htk & Hmp & Hem)].
  destruct (CompleteAuth_envVars_written answers) as (H1 & H2 & H3 & H4 & H5).
  cbv zeta in *.
  cbn [main_config SourceType SourceDomain SourceUsername SourceToken TargetUsername
       TargetType TargetDomain TargetToken MakePrivate EnableMirror].
  unfold getEnv. rewrite !Hlook.
  rewrite Hst, Hsd, Hsu, Hsk, Htu, Htt, Htd, Htk, Hmp, Hem, H1, H2, H3, H4, H5.
  split; [repeat split|]. split; [repeat split|]. split.
  - intros Hfresh.
    apply Forall_cons in Hfresh as [-> Hfresh]. apply Forall_cons in Hfresh as [-> Hfresh].
    apply Forall_cons in Hfresh as [-> Hfresh]. apply Forall_cons in Hfresh as [-> Hfresh].
    apply Forall_cons in Hfresh as [-> _]. repeat split.
  - cbn. rewrite !Sprintf_t_true. repeat split.
Qed.

(** Where the amended C9 applies: alice answers gitlab / forgejo in a
    directory without [.env], all her answers are plain. The orchestrator
    comes up with source github, target forgejo. *)
Lemma C9_witness :
  exists out fs',
    auth_ref.CompleteAuth scripted.godotenv scripted.in_order
      (scripted.form scripted.answers) scripted.blank scripted.no_files
      = (None, out, scripted.answers, fs') /\
    auth_ref.SourceType scripted.answers = "gitlab" /\
    SourceType (main_config (getEnv (dotenv_environment scripted.godotenv fs'))) = "github" /\
    SourceUsername (main_config (getEnv (dotenv_environment scripted.godotenv fs'))) = "" /\
    TargetType (main_config (getEnv (dotenv_environment scripted.godotenv fs'))) = "forgejo" /\
    TargetToken (main_config (getEnv (dotenv_environment scripted.godotenv fs'))) = "t0ken".
Proof.
  destruct (C9_source_identity_lost_between_form_and_orchestrator
              scripted.godotenv scripted.in_order
              (scripted.form scripted.answers) scripted.blank scripted.answers
              scripted.no_files eq_refl eq_refl eq_refl)
    as (out & fs' & Hrun & _ & _ & Hdefaults & Htarget).
  { vm_compute. reflexivity. }
  exists out, fs'. split; [exact Hrun|]. split; [reflexivity|].
  destruct Hdefaults as (Hst & _ & Hsu & _); [repeat constructor|].
  destruct Htarget as (Htt & _ & Htk & _).
  split; [exact Hst|]. split; [exact Hsu|]. split; [exact Htt|exact Htk].
Defined.

(** C9 as stated fails for a value that [godotenv] does not read back as it
    was written: [CompleteAuth] writes the line [TARGET_TOKEN=a b #c]
    without quotes, what follows the blank before [#] is read as a comment,
    and the orchestrator's target token is [a b]. *)
Lemma C9_counterexample_token_with_comment :
  let r := auth_ref.CompleteAuth scripted.godotenv scripted.in_order
             (scripted.form scripted.commented) scripted.blank scripted.no_files in
  fst (fst (fst r)) = None /\
  auth_ref.TargetToken scripted.commented = "a b #c" /\
  TargetToken (main_config (getEnv (dotenv_environment scripted.godotenv (snd r)))) = "a b" /\
  TargetToken (main_config (getEnv (dotenv_environment scripted.godotenv (snd r))))
    <> auth_ref.TargetToken scripted.commented.
Proof. vm_compute. repeat split. discriminate. Qed.

(** ** Pagination *)

Lemma per_page_pos : 0 < per_page.
Proof. unfold per_page. lia. Qed.

Lemma page_of_S (all : list GitHubRepo) (k : nat) :
  page_of all (S k) = take per_page (drop (k * per_page) all).
Proof. unfold page_of. replace (S k - 1) with k by lia. reflexivity. Qed.

Lemma div_lt_mul (n d q : nat) : 0 < d -> n / d < q -> n < q * d.
Proof.
  intros Hd Hq. pose proof (Nat.div_mod_eq n d) as Hdm.
  pose proof (Nat.mod_upper_bound n d ltac:(lia)). nia.
Qed.

(** The pages from [S k] on, put end to end, are the listing from record
    [k * per_page] on. *)
Lemma pages_cover_from (all : list GitHubRepo) (n k : nat) :
  length (drop (k * per_page) all) <= n * per_page ->
  flat_map (page_of all) (seq (S k) n) = drop (k * per_page) all.
Proof.
  revert k. induction n as [|n IH]; intros k Hlen.
  - cbn [seq flat_map]. symmetry. apply length_zero_iff_nil. lia.
  - cbn [seq flat_map]. rewrite page_of_S, IH.
    + replace (S k * per_page) with (k * per_page + per_page) by lia.
      rewrite <- drop_drop. apply take_drop.
    + rewrite length_drop in *. lia.
Qed.

(** The pages, put end to end, are the whole listing. *)
Lemma pages_cover (all : list GitHubRepo) :
  flat_map (page_of all) (seq 1 (S (length all / per_page))) = all.
Proof.
  rewrite (pages_cover_from all _ 0); [reflexivity|].
  change (0 * per_page) with 0. rewrite drop_0.
  apply Nat.lt_le_incl, div_lt_mul; [apply per_page_pos|apply Nat.lt_succ_diag_r].
Qed.

Section Pagination.

Context {World : Type}.
Variable http_NewRequest : string -> string -> option error.
Variable http_Do : Request -> World -> (Response + error) * World.
Variable config : Config.

(** What the forge holds, and on which pages it says that none follows. *)
Variable all : list GitHubRepo.
Variable signal : nat -> bool.

Hypothesis requests_parse :
  forall page, http_NewRequest "GET" (page_url config page) = None.

(** The forge serves [all] in pages of the requested size. *)
Hypothesis pages_served :
  forall page w, 1 <= page <= S (length all / per_page) ->
    fst (http_Do (page_request config page) w) =
      inl {| StatusCode := 200; Body := Some (page_of all page); NoNextPage := signal page |}.

(** It says that no page follows only when none does. *)
Hypothesis signal_honest :
  forall page, signal page = true -> length all <= page * per_page.

Lemma fetch_pages_from (fuel k : nat) (acc : list Repository) (w : World) :
  k * per_page <= length all ->
  length (drop (k * per_page) all) < fuel * per_page ->
  exists w',
    fetch_pages http_NewRequest http_Do fuel config (S k) acc w =
      Some ((acc ++ map toRepository (drop (k * per_page) all), None), w').
Proof.
  pose proof per_page_pos as Hpos.
  revert k acc w. induction fuel as [|fuel IH]; intros k acc w Hk Hfuel; [lia|].
  cbn [fetch_pages]. unfold do_page. rewrite requests_parse.
  assert (Hpage : 1 <= S k <= S (length all / per_page)).
  { split; [lia|]. apply le_n_S, Nat.div_le_lower_bound; lia. }
  pose proof (pages_served (S k) w Hpage) as Hserved.
  destruct (http_Do (page_request config (S k)) w) as [r w1].
  cbn [fst] in Hserved. subst r.
  cbn [StatusCode Body NoNextPage negb Nat.eqb].
  rewrite page_of_S.
  set (rest := drop (k * per_page) all) in *.
  destruct (Nat.ltb_spec (length (take per_page rest)) per_page) as [Hshort|Hfull].
  - cbn [orb]. exists w1.
    rewrite length_take in Hshort.
    rewrite take_ge by lia. reflexivity.
  - rewrite length_take in Hfull.
    assert (Hnext : S k * per_page <= length all).
    { subst rest. rewrite length_drop in Hfull. lia. }
    cbn [orb]. destruct (signal (S k)) eqn:Hsig.
    + exists w1. apply signal_honest in Hsig.
      rewrite take_ge; [reflexivity|].
      subst rest. rewrite length_drop. lia.
    + destruct (IH (S k) (acc ++ map toRepository (take per_page rest)) w1 Hnext)
        as [w' Hw'].
      { subst rest. rewrite length_drop in *. lia. }
      exists w'. rewrite Hw'.
      replace (S k * per_page) with (k * per_page + per_page) by lia.
      rewrite <- drop_drop. fold rest.
      rewrite <- app_assoc, <- map_app, take_drop. reflexivity.
Qed.

(** C2: when the forge serves its listing in pages of the requested size,
    [FetchRepos] returns the repositories of all the pages, in page order,
    and no error: it asks for the next page as long as the page it got is
    full and the forge has not said that it is the last. One request more
    than there are full pages is enough. *)
Theorem C2_pagination_exhausted (fuel : nat) (w : World) :
  length all / per_page < fuel ->
  exists w',
    GitHubClient_FetchRepos http_NewRequest http_Do fuel config w =
      Some ((flat_map (fun page => map toRepository (page_of all page))
               (seq 1 (S (length all / per_page))), None), w') /\
    flat_map (page_of all) (seq 1 (S (length all / per_page))) = all.
Proof.
  intros Hfuel. unfold GitHubClient_FetchRepos.
  destruct (fetch_pages_from fuel 0 [] w) as [w' Hw'].
  - lia.
  - change (0 * per_page) with 0. rewrite drop_0.
    apply div_lt_mul; [apply per_page_pos|exact Hfuel].
  - exists w'. split; [|apply pages_cover].
    rewrite Hw'. change (0 * per_page) with 0. rewrite drop_0. cbn [app].
    rewrite <- (pages_cover all) at 1.
    rewrite !flat_map_concat_map, concat_map, map_map. reflexivity.
Qed.

End Pagination.

(** Where C2 applies: 450 repositories, served 200, 200 and 50 to a page. *)
Lemma C2_witness :
  let config := main_config (getEnv scripted.alice_env) in
  let all := scripted.listing 450 in
  exists w',
    GitHubClient_FetchRepos scripted.new_request_ok (scripted.github config all) 3 config tt =
      Some ((flat_map (fun page => map toRepository (page_of all page))
               (seq 1 (S (length all / per_page))), None), w') /\
    flat_map (page_of all) (seq 1 (S (length all / per_page))) = all.
Proof.
  apply (C2_pagination_exhausted scripted.new_request_ok
           (scripted.github (main_config (getEnv scripted.alice_env)) (scripted.listing 450))
           (main_config (getEnv scripted.alice_env)) (scripted.listing 450)
           (fun _ => false)).
  - intros page. reflexivity.
  - intros page w [Hlo Hhi]. vm_compute in Hhi.
    destruct page as [|[|[|[|page]]]]; try lia; destruct w; vm_compute; reflexivity.
  - intros page Hsig. discriminate Hsig.
  - vm_compute. lia.
Defined.

(* ====================================================================== *)
(** * Further properties of ref.go *)
(* ====================================================================== *)

Lemma fetch_calls_app (t1 t2 : list Event) :
  fetch_calls (t1 ++ t2) = fetch_calls t1 ++ fetch_calls t2.
Proof.
  induction t1 as [|e t1 IH]; [reflexivity|].
  destruct e; simpl; rewrite IH; reflexivity.
Qed.

(** Two environments that agree on the twelve variables give one
    configuration. *)
Lemma main_config_agree (env1 env2 : gmap string string) :
  Forall (fun k => env1 !! k = env2 !! k) config_keys ->
  main_config (getEnv env1) = main_config (getEnv env2).
Proof.
  intros H. unfold config_keys in H.
  repeat (apply Forall_cons in H as [? H]).
  unfold main_config, getEnv. congruence.
Qed.

(** X1: the configuration depends on the twelve variables of the [Config]
    literal and on nothing else in the environment. *)
Theorem main_config_reads_twelve_variables (env1 env2 : gmap string string) :
  Forall (fun k => env1 !! k = env2 !! k) config_keys ->
  main_config (getEnv env1) = main_config (getEnv env2).
Proof. apply main_config_agree. Qed.

Section MoreOrchestration.

Context {World : Type}.
Variable validateConfig : Config -> option error.
Variables GitHubClient GitLabClient GiteaClient : ForgeClient World.

Abbreviation getForgeClient := (getForgeClient GitHubClient GitLabClient GiteaClient).
Abbreviation main_run := (main_run validateConfig GitHubClient GitLabClient GiteaClient).

Variables (config : Config) (w w1 : World).
Variables sourceClient targetClient : ForgeClient World.
Variable repos : list Repository.

Lemma for_range_no_fetch (tc : ForgeClient World) (rs : list Repository) (w0 : World) :
  fetch_calls (trace_of (for_range rs (migrate_one tc config) w0)) = [].
Proof.
  revert w0. induction rs as [|r rs IH]; intros w0; [reflexivity|].
  rewrite for_range_cons. cbv zeta. unfold trace_of at 1. cbn [fst snd].
  rewrite fetch_calls_app, IH. destruct (fst (MigrateRepo tc config r w0)); reflexivity.
Qed.

Lemma for_range_world (tc : ForgeClient World) (rs : list Repository) (w0 : World) :
  world_of (for_range rs (migrate_one tc config) w0) = migrated_world tc config rs w0.
Proof.
  revert w0. induction rs as [|r rs IH]; intros w0; [reflexivity|].
  rewrite for_range_cons. cbv zeta. unfold world_of at 1. cbn [snd].
  rewrite IH. reflexivity.
Qed.

(** X2: a run ends in one of two ways, by returning or with exit status 1,
    and it returns exactly when the configuration is valid, both kinds
    resolve and the listing comes back without an error. What [MigrateRepo]
    returns has no part in it. *)
Theorem main_run_returns_iff :
  (outcome_of (main_run config w) = Done tt \/ outcome_of (main_run config w) = Exited 1) /\
  (outcome_of (main_run config w) = Done tt <->
     validateConfig config = None /\
     exists sc tc,
       getForgeClient (SourceType config) = Some sc /\
       getForgeClient (TargetType config) = Some tc /\
       snd (fst (FetchRepos sc config w)) = None).
Proof.
  destruct (validateConfig config) as [e|] eqn:Hv.
  { destruct (main_run_rejected validateConfig GitHubClient GitLabClient GiteaClient config w)
      as [msg Hrun]; [left; congruence|].
    rewrite Hrun. cbn. split; [auto|]. split; [discriminate|]. intros [? _]. discriminate. }
  destruct (getForgeClient (SourceType config)) as [sc|] eqn:Hs.
  2:{ destruct (main_run_rejected validateConfig GitHubClient GitLabClient GiteaClient config w)
        as [msg Hrun]; [auto|].
      rewrite Hrun. cbn. split; [auto|]. split; [discriminate|].
      intros [_ (? & ? & ? & _)]. discriminate. }
  destruct (getForgeClient (TargetType config)) as [tc|] eqn:Ht.
  2:{ destruct (main_run_rejected validateConfig GitHubClient GitLabClient GiteaClient config w)
        as [msg Hrun]; [auto|].
      rewrite Hrun. cbn. split; [auto|]. split; [discriminate|].
      intros [_ (? & ? & _ & ? & _)]. discriminate. }
  destruct (FetchRepos sc config w) as [[rs [err|]] w'] eqn:Hf.
  - rewrite (main_run_fetch_failed _ _ _ _ _ _ _ _ _ _ _ Hv Hs Ht Hf). cbn.
    split; [auto|]. split; [discriminate|].
    intros [_ (sc' & tc' & Hsc & _ & Herr)].
    assert (sc' = sc) by congruence. subst sc'. rewrite Hf in Herr. discriminate.
  - rewrite (main_run_fetched _ _ _ _ _ _ _ _ _ _ Hv Hs Ht Hf). cbn.
    split; [auto|]. split; [|reflexivity].
    intros _. split; [reflexivity|]. exists sc, tc. rewrite Hf. auto.
Qed.

(** X3: the checks come in a fixed order and the first that fails decides
    the message: an invalid configuration is reported as such whatever its
    kinds are, an unknown source kind before an unknown target kind. Each of
    these runs prints that one line and leaves the forges alone. *)
Theorem main_run_first_failure_reported :
  (forall e, validateConfig config = Some e ->
     main_run config w = (Exited 1, [Stderr ("Invalid configuration: " +:+ e)], w)) /\
  (validateConfig config = None ->
   getForgeClient (SourceType config) = None ->
     main_run config w =
       (Exited 1, [Stderr ("Unsupported source forge type: " +:+ SourceType config)], w)) /\
  (validateConfig config = None ->
   getForgeClient (SourceType config) <> None ->
   getForgeClient (TargetType config) = None ->
     main_run config w =
       (Exited 1, [Stderr ("Unsupported target forge type: " +:+ TargetType config)], w)).
Proof.
  unfold ref.main_run, pbind, pret, log_Fatalf.
  split; [|split].
  - intros e ->. reflexivity.
  - intros -> ->. reflexivity.
  - intros -> Hs ->.
    destruct (getForgeClient (SourceType config)); [reflexivity|congruence].
Qed.

(** X4: a run migrates only what the source listed: a repository that
    [MigrateRepo] is called on is in the list that [FetchRepos] returned, and
    [FetchRepos] was called once, with the configuration of the run, as the
    first thing the run did. *)
Theorem main_run_migrates_only_listed (repo : Repository) :
  In repo (migrate_calls (trace_of (main_run config w))) ->
  exists sc,
    getForgeClient (SourceType config) = Some sc /\
    In repo (fst (fst (FetchRepos sc config w))) /\
    fetch_calls (trace_of (main_run config w)) = [config] /\
    head (trace_of (main_run config w)) = Some (CallFetchRepos config).
Proof.
  intros Hin.
  destruct (validateConfig config) as [e|] eqn:Hv.
  { destruct (main_run_rejected validateConfig GitHubClient GitLabClient GiteaClient config w)
      as [msg Hrun]; [left; congruence|]. rewrite Hrun in Hin. destruct Hin. }
  destruct (getForgeClient (SourceType config)) as [sc|] eqn:Hs.
  2:{ destruct (main_run_rejected validateConfig GitHubClient GitLabClient GiteaClient config w)
        as [msg Hrun]; [auto|]. rewrite Hrun in Hin. destruct Hin. }
  destruct (getForgeClient (TargetType config)) as [tc|] eqn:Ht.
  2:{ destruct (main_run_rejected validateConfig GitHubClient GitLabClient GiteaClient config w)
        as [msg Hrun]; [auto|]. rewrite Hrun in Hin. destruct Hin. }
  destruct (FetchRepos sc config w) as [[rs [err|]] w'] eqn:Hf.
  - rewrite (main_run_fetch_failed _ _ _ _ _ _ _ _ _ _ _ Hv Hs Ht Hf) in Hin. destruct Hin.
  - rewrite (main_run_fetched _ _ _ _ _ _ _ _ _ _ Hv Hs Ht Hf) in Hin |- *.
    unfold trace_of at 1 in Hin. cbn [fst snd migrate_calls] in Hin.
    rewrite for_range_calls in Hin.
    exists sc. split; [reflexivity|]. split; [rewrite Hf; exact Hin|].
    unfold trace_of at 1 3. cbn [fst snd fetch_calls head].
    rewrite for_range_no_fetch. split; reflexivity.
Qed.

(** X5: the forges a run leaves behind are the forges after the listing
    with [MigrateRepo] applied to the listed repositories one after the
    other, in list order: nothing else in a run acts on them. *)
Theorem main_run_world_is_sequential :
  validateConfig config = None ->
  getForgeClient (SourceType config) = Some sourceClient ->
  getForgeClient (TargetType config) = Some targetClient ->
  FetchRepos sourceClient config w = ((repos, None), w1) ->
  world_of (main_run config w) = migrated_world targetClient config repos w1.
Proof.
  intros Hv Hs Ht Hf.
  rewrite (main_run_fetched _ _ _ _ _ _ _ _ _ _ Hv Hs Ht Hf).
  unfold world_of at 1. cbn [snd]. apply for_range_world.
Qed.

(** X6: a repository whose [MigrateRepo] call returns no error is reported
    as migrated on standard output. *)
Theorem main_run_reports_success (pre post : list Repository) (repo : Repository) :
  validateConfig config = None ->
  getForgeClient (SourceType config) = Some sourceClient ->
  getForgeClient (TargetType config) = Some targetClient ->
  FetchRepos sourceClient config w = ((repos, None), w1) ->
  repos = pre ++ repo :: post ->
  fst (MigrateRepo targetClient config repo (migrated_world targetClient config pre w1)) = None ->
  In (Stdout ("✓ Successfully migrated " +:+ Name repo +:+ LF)) (trace_of (main_run config w)).
Proof.
  intros Hv Hs Ht Hf -> Hok.
  pose proof (for_range_reports targetClient config pre post repo w1) as Hr.
  cbv zeta in Hr. rewrite for_range_world, Hok in Hr.
  rewrite (main_run_fetched _ _ _ _ _ _ _ _ _ _ Hv Hs Ht Hf).
  unfold trace_of at 1. cbn [fst snd]. right. right. exact Hr.
Qed.

End MoreOrchestration.

(** X7: when the first request cannot be built, [FetchRepos] returns no
    repositories and the error of [http.NewRequest] and sends nothing; when
    sending it fails, [FetchRepos] returns no repositories and the error of
    [client.Do] (lines 123-135). *)
Theorem GitHubClient_FetchRepos_request_errors {World : Type}
    (http_NewRequest : string -> string -> option error)
    (http_Do : Request -> World -> (Response + error) * World)
    (fuel : nat) (config : Config) (w : World) :
  (forall e, http_NewRequest "GET" (FetchRepos_url config) = Some e ->
     GitHubClient_FetchRepos http_NewRequest http_Do (S fuel) config w
       = Some (([], Some e), w)) /\
  (forall e w1, http_NewRequest "GET" (FetchRepos_url config) = None ->
     http_Do {| Method := "GET"; URL := FetchRepos_url config;
                BasicAuth := (SourceUsername config, SourceToken config);
                Accept := "application/vnd.github.v3+json" |} w = (inr e, w1) ->
     GitHubClient_FetchRepos http_NewRequest http_Do (S fuel) config w
       = Some (([], Some e), w1)).
Proof.
  unfold GitHubClient_FetchRepos. cbn [fetch_pages]. unfold do_page.
  change (page_url config 1) with (FetchRepos_url config).
  split.
  - intros e ->. reflexivity.
  - intros e w1 -> Hdo. unfold page_request.
    change (page_url config 1) with (FetchRepos_url config).
    rewrite Hdo. reflexivity.
Qed.

(** ** Concrete runs for the further properties *)

(** X1 at work: a SRC_TYPE in the environment changes nothing. *)
Lemma main_config_reads_twelve_variables_witness :
  main_config (getEnv scripted.alice_env)
  = main_config (getEnv (<["SRC_TYPE":="gitlab"]> scripted.alice_env)).
Proof.
  apply (main_config_reads_twelve_variables scripted.alice_env
           (<["SRC_TYPE":="gitlab"]> scripted.alice_env)).
  repeat constructor.
Defined.

(** X4 at work: repoB is migrated, and repoB was listed. *)
Lemma main_run_migrates_only_listed_witness :
  let rs := [scripted.repoA; scripted.repoB] in
  let r := scripted.run rs scripted.alice_env [503; 201] in
  exists sc,
    getForgeClient (scripted.client rs) (scripted.client rs) (scripted.client rs) "github"
      = Some sc /\
    In scripted.repoB (fst (fst (FetchRepos sc (main_config (getEnv scripted.alice_env)) [503; 201]))) /\
    fetch_calls (trace_of r) = [main_config (getEnv scripted.alice_env)] /\
    head (trace_of r) = Some (CallFetchRepos (main_config (getEnv scripted.alice_env))).
Proof.
  pose (rs := [scripted.repoA; scripted.repoB]).
  apply (main_run_migrates_only_listed scripted.accept
           (scripted.client rs) (scripted.client rs) (scripted.client rs)
           (main_config (getEnv scripted.alice_env)) [503; 201] scripted.repoB).
  vm_compute. right. left. reflexivity.
Defined.

(** X5 at work: two calls used up the two answers of the target. *)
Lemma main_run_world_is_sequential_witness :
  let rs := [scripted.repoA; scripted.repoB] in
  world_of (scripted.run rs scripted.alice_env [503; 201; 404])
  = migrated_world (scripted.client rs) (main_config (getEnv scripted.alice_env)) rs
      [503; 201; 404].
Proof.
  pose (rs := [scripted.repoA; scripted.repoB]).
  exact (main_run_world_is_sequential scripted.accept
           (scripted.client rs) (scripted.client rs) (scripted.client rs)
           (main_config (getEnv scripted.alice_env)) [503; 201; 404] [503; 201; 404]
           (scripted.client rs) (scripted.client rs) rs
           eq_refl eq_refl eq_refl eq_refl).
Defined.

(** X6 at work: repoB, answered 201, is reported as migrated. *)
Lemma main_run_reports_success_witness :
  In (Stdout ("✓ Successfully migrated repoB" +:+ LF))
     (trace_of (scripted.run [scripted.repoA; scripted.repoB] scripted.alice_env [503; 201])).
Proof.
  pose (rs := [scripted.repoA; scripted.repoB]).
  exact (main_run_reports_success scripted.accept
           (scripted.client rs) (scripted.client rs) (scripted.client rs)
           (main_config (getEnv scripted.alice_env)) [503; 201] [503; 201]
           (scripted.client rs) (scripted.client rs) rs
           [scripted.repoA] [] scripted.repoB
           eq_refl eq_refl eq_refl eq_refl eq_refl eq_refl).
Defined.


(* ====================================================================== *)
(** * Further properties of auth_ref.go *)
(* ====================================================================== *)

Lemma merge_merge (v2 v1 old : gmap string string) :
  auth_ref.merge v2 (auth_ref.merge v1 old) = auth_ref.merge (auth_ref.merge v2 v1) old.
Proof.
  apply map_eq. intros k. rewrite !merge_lookup.
  destruct (v2 !! k); [reflexivity|]. destruct (v1 !! k); reflexivity.
Qed.

Lemma merge_idemp (v old : gmap string string) :
  auth_ref.merge v (auth_ref.merge v old) = auth_ref.merge v old.
Proof.
  apply map_eq. intros k. rewrite !merge_lookup.
  destruct (v !! k); reflexivity.
Qed.

(** When the keys of [small] are keys of [big], writing [big] over [small]
    is writing [big]. *)
Lemma merge_covers (big small old : gmap string string) :
  (forall k, big !! k = None -> small !! k = None) ->
  auth_ref.merge big (auth_ref.merge small old) = auth_ref.merge big old.
Proof.
  intros Hsub. apply map_eq. intros k. rewrite !merge_lookup.
  destruct (big !! k) eqn:Hk; [reflexivity|]. by rewrite (Hsub k Hk).
Qed.

(** The lines written are those of the merged map, in the order of the
    loop. *)
Lemma written_perm godotenv_Read range_order (vars : gmap string string) (fs : auth_ref.Files) :
  auth_ref.visits_each_once range_order ->
  Permutation (auth_ref.written godotenv_Read range_order vars fs)
    (map auth_ref.line
       (map_to_list (auth_ref.merge vars (auth_ref.existing godotenv_Read fs)))).
Proof. intros Hvisit. unfold auth_ref.written. apply Permutation_map, Hvisit. Qed.

Lemma written_In godotenv_Read range_order (vars : gmap string string) (fs : auth_ref.Files)
    (k v : string) :
  auth_ref.visits_each_once range_order ->
  auth_ref.merge vars (auth_ref.existing godotenv_Read fs) !! k = Some v ->
  In (auth_ref.line (k, v)) (auth_ref.written godotenv_Read range_order vars fs).
Proof.
  intros Hvisit Hk. unfold auth_ref.written. apply in_map.
  apply (Permutation_in _ (Permutation_sym (Hvisit _))).
  apply list_elem_of_In. by apply elem_of_map_to_list.
Qed.

(** The same map is written as the same lines, whatever the order. *)
Lemma lines_perm order1 order2 (m : gmap string string) :
  auth_ref.visits_each_once order1 ->
  auth_ref.visits_each_once order2 ->
  Permutation (map auth_ref.line (order1 m)) (map auth_ref.line (order2 m)).
Proof.
  intros H1 H2. apply Permutation_map.
  etransitivity; [apply H1|]. symmetry. apply H2.
Qed.

(** A loop that ends with an error ends with a failed input. *)
Lemma SourceAuth_collect_error Input_Run (fields : list auth_ref.Field)
    (forge forge' : auth_ref.Forge) (vars vars' : gmap string string) (err : error) :
  auth_ref.SourceAuth_collect Input_Run fields forge vars = (Some err, forge', vars') ->
  exists e, err = "input failed: " +:+ e.
Proof.
  revert forge vars. induction fields as [|field rest IH]; intros forge vars H.
  - discriminate H.
  - cbn [auth_ref.SourceAuth_collect] in H.
    destruct (Input_Run _ _ _) as [[e|] typed].
    + injection H as <- _ _. by exists e.
    + by apply IH in H.
Qed.

(** A loop that gets through the four fields has collected what the map
    literal of [SourceAuthWithForm] holds for the [Forge] it leaves. *)
Lemma SourceAuth_collect_ok Input_Run (forge forge' : auth_ref.Forge)
    (vars : gmap string string) :
  auth_ref.SourceAuth_collect Input_Run auth_ref.SourceAuth_fields forge ∅
    = (None, forge', vars) ->
  vars = auth_ref.SourceAuthWithForm_envVars forge'.
Proof.
  unfold auth_ref.SourceAuth_fields.
  cbn [auth_ref.SourceAuth_collect auth_ref.title auth_ref.prompt auth_ref.envKey
       auth_ref.value auth_ref.set_value].
  destruct (Input_Run _ _ _) as [[e1|] t1]; [discriminate|].
  destruct (Input_Run _ _ _) as [[e2|] t2]; [discriminate|].
  destruct (Input_Run _ _ _) as [[e3|] t3]; [discriminate|].
  destruct (Input_Run _ _ _) as [[e4|] t4]; [discriminate|].
  intros H. injection H as <- <-.
  apply map_eq. intros k. unfold auth_ref.SourceAuthWithForm_envVars.
  cbn [list_to_map foldr fst snd curry uncurry
       auth_ref.SourceType auth_ref.SourceUsername auth_ref.SourceDomain
       auth_ref.SourceToken auth_ref.set_SourceType auth_ref.set_SourceUsername
       auth_ref.set_SourceDomain auth_ref.set_SourceToken].
  rewrite !lookup_insert. repeat case_decide; try reflexivity; congruence.
Qed.

(** The four keys, and no key the orchestrator reads. *)
Lemma SourceAuthWithForm_envVars_unread (forge : auth_ref.Forge) :
  Forall (fun k => auth_ref.SourceAuthWithForm_envVars forge !! k = None) config_keys.
Proof. repeat constructor. Qed.

Lemma CompleteAuth_covers_SourceAuth (answers forge : auth_ref.Forge) (k : string) :
  auth_ref.CompleteAuth_envVars answers !! k = None ->
  auth_ref.SourceAuthWithForm_envVars forge !! k = None.
Proof.
  unfold auth_ref.CompleteAuth_envVars, auth_ref.SourceAuthWithForm_envVars.
  cbn [list_to_map foldr fst snd curry uncurry].
  rewrite !lookup_insert. repeat case_decide; try reflexivity; try discriminate; congruence.
Qed.

(** What each of the three functions hands to [writeEnvFile] when it gets
    that far, and what it returns when it does not. *)
Lemma SourceAuth_result godotenv_Read range_order Input_Run
    (forge : auth_ref.Forge) (fs : auth_ref.Files) :
  (exists e forge',
     auth_ref.SourceAuth godotenv_Read range_order Input_Run forge fs
     = (Some ("input failed: " +:+ e), [], forge', fs)) \/
  (exists forge',
     auth_ref.SourceAuth godotenv_Read range_order Input_Run forge fs
     = (let '(err, out, fs') :=
          auth_ref.writeEnvFile godotenv_Read range_order
            (auth_ref.SourceAuthWithForm_envVars forge') fs in
        (err, out, forge', fs'))).
Proof.
  unfold auth_ref.SourceAuth.
  destruct (auth_ref.SourceAuth_collect _ _ _ _) as [[[e|] forge'] vars] eqn:Hc.
  - left. apply SourceAuth_collect_error in Hc as [e' ->]. by exists e', forge'.
  - right. apply SourceAuth_collect_ok in Hc as ->. by exists forge'.
Qed.

Lemma SourceAuthWithForm_result godotenv_Read range_order form_Run
    (forge : auth_ref.Forge) (fs : auth_ref.Files) :
  (exists e forge',
     auth_ref.SourceAuthWithForm godotenv_Read range_order form_Run forge fs
     = (Some ("form failed: " +:+ e), [], forge', fs)) \/
  (exists forge',
     auth_ref.SourceAuthWithForm godotenv_Read range_order form_Run forge fs
     = (let '(err, out, fs') :=
          auth_ref.writeEnvFile godotenv_Read range_order
            (auth_ref.SourceAuthWithForm_envVars forge') fs in
        (err, out, forge', fs'))).
Proof.
  unfold auth_ref.SourceAuthWithForm.
  destruct (form_Run forge) as [[e|] forge'].
  - left. by exists e, forge'.
  - right. by exists forge'.
Qed.

Lemma CompleteAuth_result godotenv_Read range_order form_Run
    (forge : auth_ref.Forge) (fs : auth_ref.Files) :
  (exists e forge',
     auth_ref.CompleteAuth godotenv_Read range_order form_Run forge fs
     = (Some ("form failed: " +:+ e), [], forge', fs)) \/
  (exists forge',
     form_Run forge = (None, forge') /\
     auth_ref.CompleteAuth godotenv_Read range_order form_Run forge fs
     = (let '(err, out, fs') :=
          auth_ref.writeEnvFile godotenv_Read range_order
            (auth_ref.CompleteAuth_envVars forge') fs in
        (err, out, forge', fs'))).
Proof.
  unfold auth_ref.CompleteAuth.
  destruct (form_Run forge) as [[e|] forge'].
  - left. by exists e, forge'.
  - right. by exists forge'.
Qed.

(** X8: a write that can open [.env] and does not fail on the way leaves a
    file that is made of the lines [key=value], one for each variable of
    [vars] merged over what [godotenv.Read] returned for the old file: a
    variable of [vars] is written with its new value, every other variable
    with the value that was read, without quotes. When [godotenv] reads the
    lines back as they were written, a key of [vars] has its new value
    afterwards and every other key the value it had. *)
Theorem writeEnvFile_writes_merged_lines godotenv_Read range_order
    (vars : gmap string string) (fs : auth_ref.Files) :
  auth_ref.open_error fs = None ->
  auth_ref.write_error fs = None ->
  auth_ref.visits_each_once range_order ->
  let lines := auth_ref.written godotenv_Read range_order vars fs in
  let result := auth_ref.writeEnvFile godotenv_Read range_order vars fs in
  fst (fst result) = None /\
  auth_ref.dotenv (snd result) = Some (auth_ref.text_of lines) /\
  length lines = size (auth_ref.merge vars (auth_ref.existing godotenv_Read fs)) /\
  (forall k v, vars !! k = Some v -> In (auth_ref.line (k, v)) lines) /\
  (forall k v, vars !! k = None -> auth_ref.existing godotenv_Read fs !! k = Some v ->
     In (auth_ref.line (k, v)) lines) /\
  (auth_ref.reads_back godotenv_Read range_order
     (auth_ref.merge vars (auth_ref.existing godotenv_Read fs)) ->
   forall k, dotenv_environment godotenv_Read (snd result) !! k =
             match vars !! k with
             | Some v => Some v
             | None => dotenv_environment godotenv_Read fs !! k
             end).
Proof.
  intros Hopen Hwrite Hvisit. cbv zeta.
  rewrite writeEnvFile_cases. cbv zeta. rewrite Hopen, Hwrite. cbn [fst snd auth_ref.dotenv].
  split; [reflexivity|]. split; [reflexivity|]. split; [|split; [|split]].
  - rewrite (Permutation_length (written_perm _ _ vars fs Hvisit)).
    by rewrite length_map, length_map_to_list.
  - intros k v Hk. apply written_In; [exact Hvisit|]. by rewrite merge_lookup, Hk.
  - intros k v Hk Hold. apply written_In; [exact Hvisit|]. by rewrite merge_lookup, Hk.
  - intros Hback k. unfold dotenv_environment.
    erewrite existing_after_write; [apply merge_lookup|reflexivity|exact Hback].
Qed.

(** X9: when [godotenv] reads the file back as it was written, writing the
    same variables a second time writes the same lines again, in whatever
    order the second loop takes them. *)
Theorem writeEnvFile_idempotent godotenv_Read order1 order2
    (vars : gmap string string) (fs : auth_ref.Files) :
  auth_ref.open_error fs = None ->
  auth_ref.write_error fs = None ->
  auth_ref.visits_each_once order1 ->
  auth_ref.visits_each_once order2 ->
  auth_ref.reads_back godotenv_Read order1
    (auth_ref.merge vars (auth_ref.existing godotenv_Read fs)) ->
  let fs1 := snd (auth_ref.writeEnvFile godotenv_Read order1 vars fs) in
  let second := auth_ref.writeEnvFile godotenv_Read order2 vars fs1 in
  fst (fst second) = None /\
  auth_ref.dotenv (snd second)
    = Some (auth_ref.text_of (auth_ref.written godotenv_Read order2 vars fs1)) /\
  Permutation (auth_ref.written godotenv_Read order2 vars fs1)
              (auth_ref.written godotenv_Read order1 vars fs).
Proof.
  intros Hopen Hwrite Hv1 Hv2 Hback. cbv zeta.
  rewrite (writeEnvFile_cases godotenv_Read order1 vars fs). cbv zeta.
  rewrite Hopen, Hwrite. cbn [snd].
  rewrite writeEnvFile_cases. cbv zeta. cbn [auth_ref.open_error auth_ref.write_error fst snd auth_ref.dotenv].
  split; [reflexivity|]. split; [reflexivity|].
  unfold auth_ref.written at 1.
  erewrite existing_after_write; [|reflexivity|exact Hback].
  rewrite merge_idemp. unfold auth_ref.written. by apply lines_perm.
Qed.

(** X10: when [godotenv] reads the file back as it was written, two writes
    in a row write the lines that one write of the two maps merged writes,
    the second map winning where both have a key. *)
Theorem writeEnvFile_twice godotenv_Read order1 order2 order3
    (v1 v2 : gmap string string) (fs : auth_ref.Files) :
  auth_ref.open_error fs = None ->
  auth_ref.write_error fs = None ->
  auth_ref.visits_each_once order2 ->
  auth_ref.visits_each_once order3 ->
  auth_ref.reads_back godotenv_Read order1
    (auth_ref.merge v1 (auth_ref.existing godotenv_Read fs)) ->
  let fs1 := snd (auth_ref.writeEnvFile godotenv_Read order1 v1 fs) in
  let second := auth_ref.writeEnvFile godotenv_Read order2 v2 fs1 in
  fst (fst second) = None /\
  auth_ref.dotenv (snd second)
    = Some (auth_ref.text_of (auth_ref.written godotenv_Read order2 v2 fs1)) /\
  Permutation (auth_ref.written godotenv_Read order2 v2 fs1)
              (auth_ref.written godotenv_Read order3 (auth_ref.merge v2 v1) fs).
Proof.
  intros Hopen Hwrite Hv2 Hv3 Hback. cbv zeta.
  rewrite (writeEnvFile_cases godotenv_Read order1 v1 fs). cbv zeta.
  rewrite Hopen, Hwrite. cbn [snd].
  rewrite writeEnvFile_cases. cbv zeta. cbn [auth_ref.open_error auth_ref.write_error fst snd auth_ref.dotenv].
  split; [reflexivity|]. split; [reflexivity|].
  unfold auth_ref.written at 1.
  erewrite existing_after_write; [|reflexivity|exact Hback].
  rewrite merge_merge. unfold auth_ref.written. by apply lines_perm.
Qed.

(** ** The forms *)

(** X11: the two ways of asking for the source agree. When the four prompts
    of [SourceAuth] succeed, it writes what [SourceAuthWithForm] writes for
    a form that leaves the same [Forge]: the returned error, the output, the
    [Forge] and the files are the same. *)
Theorem SourceAuth_agrees_with_SourceAuthWithForm godotenv_Read range_order Input_Run
    (forge forge' : auth_ref.Forge) (vars : gmap string string) (fs : auth_ref.Files) :
  auth_ref.SourceAuth_collect Input_Run auth_ref.SourceAuth_fields forge ∅
    = (None, forge', vars) ->
  vars = auth_ref.SourceAuthWithForm_envVars forge' /\
  auth_ref.SourceAuth godotenv_Read range_order Input_Run forge fs
  = auth_ref.SourceAuthWithForm godotenv_Read range_order (fun _ => (None, forge')) forge fs.
Proof.
  intros Hc. pose proof (SourceAuth_collect_ok _ _ _ _ Hc) as ->.
  split; [reflexivity|].
  unfold auth_ref.SourceAuth, auth_ref.SourceAuthWithForm. by rewrite Hc.
Qed.


(** After a write without error that [godotenv] reads back as written, a
    key that was not written has the value it had. *)
Lemma unwritten_after_write godotenv_Read range_order
    (vars : gmap string string) (fs fs' : auth_ref.Files) (out : list string) (k : string) :
  auth_ref.writeEnvFile godotenv_Read range_order vars fs = (None, out, fs') ->
  auth_ref.reads_back godotenv_Read range_order
    (auth_ref.merge vars (auth_ref.existing godotenv_Read fs)) ->
  vars !! k = None ->
  dotenv_environment godotenv_Read fs' !! k = dotenv_environment godotenv_Read fs !! k.
Proof.
  intros Hrun Hback Hk. apply writeEnvFile_success in Hrun as (_ & Hfile & _).
  unfold dotenv_environment.
  rewrite (existing_after_write _ _ _ _ _ Hfile Hback), merge_lookup, Hk. reflexivity.
Qed.

(** X13: when [SourceAuth] or [SourceAuthWithForm] returns without error and
    [godotenv] reads the file back as it was written, the configuration the
    orchestrator builds from [.env] is what it was before: the four keys
    they write are not among the twelve it reads. *)
Theorem SourceAuth_invisible_to_orchestrator godotenv_Read range_order Input_Run form_Run
    (forge answers : auth_ref.Forge) (fs fs' : auth_ref.Files)
    (r : option error * list string * auth_ref.Forge * auth_ref.Files) (out : list string) :
  r = auth_ref.SourceAuth godotenv_Read range_order Input_Run forge fs \/
  r = auth_ref.SourceAuthWithForm godotenv_Read range_order form_Run forge fs ->
  r = (None, out, answers, fs') ->
  auth_ref.reads_back godotenv_Read range_order
    (auth_ref.merge (auth_ref.SourceAuthWithForm_envVars answers)
       (auth_ref.existing godotenv_Read fs)) ->
  main_config (getEnv (dotenv_environment godotenv_Read fs'))
  = main_config (getEnv (dotenv_environment godotenv_Read fs)).
Proof.
  intros Hwhich Hr Hback.
  assert (Hrun : auth_ref.writeEnvFile godotenv_Read range_order
                   (auth_ref.SourceAuthWithForm_envVars answers) fs = (None, out, fs')).
  { subst r. destruct Hwhich as [H|H].
    - destruct (SourceAuth_result godotenv_Read range_order Input_Run forge fs)
        as [(e & f & Heq)|(f & Heq)]; rewrite Heq in H; [discriminate H|].
      destruct (auth_ref.writeEnvFile _ _ _ fs) as [[err out0] fs0] eqn:Hrun.
      injection H as <- <- <- <-. exact Hrun.
    - destruct (SourceAuthWithForm_result godotenv_Read range_order form_Run forge fs)
        as [(e & f & Heq)|(f & Heq)]; rewrite Heq in H; [discriminate H|].
      destruct (auth_ref.writeEnvFile _ _ _ fs) as [[err out0] fs0] eqn:Hrun.
      injection H as <- <- <- <-. exact Hrun. }
  apply main_config_agree.
  eapply Forall_impl; [apply (SourceAuthWithForm_envVars_unread answers)|].
  intros k Hk. by apply (unwritten_after_write _ _ _ _ _ _ _ Hrun Hback).
Qed.

(** X14: [CompleteAuth] makes an earlier [SourceAuthWithForm] redundant:
    when both forms succeed, no write fails and [godotenv] reads the file of
    the first back as it was written, [CompleteAuth] writes the same lines
    whether or not the source was asked for before. *)
Theorem CompleteAuth_supersedes_SourceAuth godotenv_Read order1 order2 order3
    form1_Run form_Run (forge1 asked forge answers : auth_ref.Forge) (fs : auth_ref.Files) :
  form1_Run forge1 = (None, asked) ->
  form_Run forge = (None, answers) ->
  auth_ref.open_error fs = None ->
  auth_ref.write_error fs = None ->
  auth_ref.visits_each_once order2 ->
  auth_ref.visits_each_once order3 ->
  auth_ref.reads_back godotenv_Read order1
    (auth_ref.merge (auth_ref.SourceAuthWithForm_envVars asked)
       (auth_ref.existing godotenv_Read fs)) ->
  let fs1 := snd (auth_ref.SourceAuthWithForm godotenv_Read order1 form1_Run forge1 fs) in
  let both := auth_ref.CompleteAuth godotenv_Read order2 form_Run forge fs1 in
  let alone := auth_ref.CompleteAuth godotenv_Read order3 form_Run forge fs in
  let lines_both :=
    auth_ref.written godotenv_Read order2 (auth_ref.CompleteAuth_envVars answers) fs1 in
  let lines_alone :=
    auth_ref.written godotenv_Read order3 (auth_ref.CompleteAuth_envVars answers) fs in
  auth_ref.dotenv (snd both) = Some (auth_ref.text_of lines_both) /\
  auth_ref.dotenv (snd alone) = Some (auth_ref.text_of lines_alone) /\
  Permutation lines_both lines_alone.
Proof.
  intros Hform1 Hform Hopen Hwrite Hv2 Hv3 Hback. cbv zeta.
  unfold auth_ref.SourceAuthWithForm, auth_ref.CompleteAuth. rewrite Hform1, Hform.
  rewrite !writeEnvFile_cases. cbv zeta. rewrite Hopen, Hwrite.
  cbn [fst snd auth_ref.open_error auth_ref.write_error auth_ref.dotenv].
  split; [reflexivity|]. split; [reflexivity|].
  unfold auth_ref.written at 1.
  erewrite existing_after_write; [|reflexivity|exact Hback].
  rewrite merge_covers by (intros k; apply CompleteAuth_covers_SourceAuth).
  unfold auth_ref.written. by apply lines_perm.
Qed.

(** X15: when [CompleteAuth] returns without error and [godotenv] reads the
    file back as it was written, only its ten keys have changed: every
    other variable of [.env] has the value it had. In particular
    ENABLE_WIKI and TARGET_REPO_OWNER are not written, and the orchestrator's
    EnableWiki and TargetRepoOwner are what they were. *)
Theorem CompleteAuth_touches_ten_keys godotenv_Read range_order form_Run
    (forge answers : auth_ref.Forge) (fs fs' : auth_ref.Files) (out : list string) :
  auth_ref.CompleteAuth godotenv_Read range_order form_Run forge fs
    = (None, out, answers, fs') ->
  auth_ref.reads_back godotenv_Read range_order
    (auth_ref.merge (auth_ref.CompleteAuth_envVars answers)
       (auth_ref.existing godotenv_Read fs)) ->
  let before := dotenv_environment godotenv_Read fs in
  let after := dotenv_environment godotenv_Read fs' in
  (forall k,
     ~ In k ["SRC_TYPE"; "SRC_USER"; "SRC_DOMAIN"; "SRC_TOKEN"; "TARGET_TYPE";
             "TARGET_USER"; "TARGET_DOMAIN"; "TARGET_TOKEN"; "MAKE_PRIVATE";
             "ENABLE_MIRROR"] ->
     after !! k = before !! k) /\
  EnableWiki (main_config (getEnv after)) = EnableWiki (main_config (getEnv before)) /\
  TargetRepoOwner (main_config (getEnv after)) = TargetRepoOwner (main_config (getEnv before)).
Proof.
  intros Hr Hback. cbv zeta.
  assert (Hrun : auth_ref.writeEnvFile godotenv_Read range_order
                   (auth_ref.CompleteAuth_envVars answers) fs = (None, out, fs')).
  { destruct (CompleteAuth_result godotenv_Read range_order form_Run forge fs)
      as [(e & f & Heq)|(f & _ & Heq)]; rewrite Heq in Hr; [discriminate Hr|].
    destruct (auth_ref.writeEnvFile _ _ _ fs) as [[err out0] fs0] eqn:Hrun.
    injection Hr as <- <- <- <-. exact Hrun. }
  assert (Hkeep : forall k,
             ~ In k ["SRC_TYPE"; "SRC_USER"; "SRC_DOMAIN"; "SRC_TOKEN"; "TARGET_TYPE";
                     "TARGET_USER"; "TARGET_DOMAIN"; "TARGET_TOKEN"; "MAKE_PRIVATE";
                     "ENABLE_MIRROR"] ->
             dotenv_environment godotenv_Read fs' !! k
             = dotenv_environment godotenv_Read fs !! k).
  { intros k Hk. apply (unwritten_after_write _ _ _ _ _ _ _ Hrun Hback).
    unfold auth_ref.CompleteAuth_envVars. cbn [list_to_map foldr fst snd curry uncurry].
    rewrite !lookup_insert. cbn [In] in Hk.
    repeat case_decide; try reflexivity; exfalso; apply Hk; subst; auto 12. }
  split; [exact Hkeep|].
  cbn [main_config EnableWiki TargetRepoOwner]. unfold getEnv.
  rewrite !Hkeep; [split; reflexivity| |];
    cbn [In]; intros H; repeat (destruct H as [H|H]; [discriminate H|]); exact H.
Qed.

(** X16: [main] says that the configuration is complete only after every
    line was written. It ends in one of three ways: exit status 0, with the
    file made of the lines for the answers merged over the old variables;
    exit status 1 with [.env] as before (the form failed or the file could
    not be opened); exit status 1 with [.env] cut down to the lines written
    before a write failed. With status 1 nothing is on standard output and
    the one line on standard error starts with "Authentication failed: ". *)
Theorem auth_main_complete_means_written godotenv_Read range_order form_Run
    (fs : auth_ref.Files) :
  let answers := snd (form_Run auth_ref.Forge_zero) in
  let lines :=
    auth_ref.written godotenv_Read range_order (auth_ref.CompleteAuth_envVars answers) fs in
  let '(status, out, errs, fs') := auth_ref.main godotenv_Read range_order form_Run fs in
  (status = 0 /\ errs = [] /\ In "✓ Configuration complete!" out /\
   auth_ref.dotenv fs' = Some (auth_ref.text_of lines) /\
   (auth_ref.visits_each_once range_order ->
    forall k v, auth_ref.CompleteAuth_envVars answers !! k = Some v ->
                In (auth_ref.line (k, v)) lines)) \/
  (status = 1 /\ out = [] /\
   (exists e, errs = ["Authentication failed: " +:+ e]) /\
   (fs' = fs \/
    exists n e, auth_ref.write_error fs = Some (n, e) /\ n < length lines /\
                auth_ref.dotenv fs' = Some (auth_ref.text_of (take n lines)))).
Proof.
  cbv zeta. unfold auth_ref.main, auth_ref.CompleteAuth.
  destruct (form_Run auth_ref.Forge_zero) as [[e|] answers]; cbn [snd].
  { right. repeat split; [by eexists|by left]. }
  rewrite writeEnvFile_cases. cbv zeta.
  destruct (auth_ref.open_error fs) as [e|].
  { right. repeat split; [by eexists|by left]. }
  assert (Hdone :
            (0 = 0 /\ @nil string = [] /\
             In "✓ Configuration complete!"
               (["✓ Saved configuration to .env"] ++
                [""; "✓ Configuration complete!";
                 "Source: " +:+ auth_ref.SourceType answers +:+ " ("
                   +:+ auth_ref.SourceUsername answers +:+ ")";
                 "Target: " +:+ auth_ref.TargetType answers +:+ " ("
                   +:+ auth_ref.TargetUsername answers +:+ ")"]) /\
             Some (auth_ref.text_of
                     (auth_ref.written godotenv_Read range_order
                        (auth_ref.CompleteAuth_envVars answers) fs))
             = Some (auth_ref.text_of
                       (auth_ref.written godotenv_Read range_order
                          (auth_ref.CompleteAuth_envVars answers) fs)) /\
             (auth_ref.visits_each_once range_order ->
              forall k v, auth_ref.CompleteAuth_envVars answers !! k = Some v ->
                          In (auth_ref.line (k, v))
                             (auth_ref.written godotenv_Read range_order
                                (auth_ref.CompleteAuth_envVars answers) fs)))).
  { split; [reflexivity|]. split; [reflexivity|]. split; [cbn; auto|].
    split; [reflexivity|]. intros Hvisit k v Hk.
    apply written_In; [exact Hvisit|]. by rewrite merge_lookup, Hk. }
  destruct (auth_ref.write_error fs) as [[n err]|]; [|by left].
  destruct (Nat.ltb_spec n
              (length (auth_ref.written godotenv_Read range_order
                         (auth_ref.CompleteAuth_envVars answers) fs))); [|by left].
  right. repeat split; [by eexists|]. right. by exists n, err.
Qed.

(** ** Concrete runs for auth_ref.go *)

Lemma in_order_visits : auth_ref.visits_each_once scripted.in_order.
Proof. intros m. reflexivity. Qed.

(** X8 at work: SRC_TYPE is added to a [.env] written by hand; its line is
    written, the line of the user name is written again, and both are read
    back. *)
Lemma writeEnvFile_writes_merged_lines_witness :
  let lines :=
    auth_ref.written scripted.godotenv scripted.in_order {["SRC_TYPE" := "gitlab"]}
      scripted.by_hand in
  let fs' :=
    snd (auth_ref.writeEnvFile scripted.godotenv scripted.in_order {["SRC_TYPE" := "gitlab"]}
           scripted.by_hand) in
  length lines = 6 /\
  In ("SRC_TYPE=gitlab" +:+ LF) lines /\
  In ("SOURCE_USERNAME=alice" +:+ LF) lines /\
  dotenv_environment scripted.godotenv fs' !! "SRC_TYPE" = Some "gitlab" /\
  dotenv_environment scripted.godotenv fs' !! "SOURCE_USERNAME" = Some "alice".
Proof.
  destruct (writeEnvFile_writes_merged_lines scripted.godotenv scripted.in_order
              {["SRC_TYPE" := "gitlab"]} scripted.by_hand eq_refl eq_refl in_order_visits)
    as (_ & _ & Hlen & Hnew & Hold & Hback).
  split; [rewrite Hlen; vm_compute; reflexivity|].
  split; [apply (Hnew "SRC_TYPE" "gitlab"); reflexivity|].
  split; [apply (Hold "SOURCE_USERNAME" "alice"); vm_compute; reflexivity|].
  split; rewrite Hback; vm_compute; reflexivity.
Defined.

(** X9 at work: the same four variables written twice over a [.env] written
    by hand. *)
Lemma writeEnvFile_idempotent_witness :
  let vars := auth_ref.SourceAuthWithForm_envVars scripted.answers in
  let fs1 := snd (auth_ref.writeEnvFile scripted.godotenv scripted.in_order vars scripted.by_hand) in
  Permutation (auth_ref.written scripted.godotenv scripted.in_order vars fs1)
              (auth_ref.written scripted.godotenv scripted.in_order vars scripted.by_hand).
Proof.
  refine (proj2 (proj2 (writeEnvFile_idempotent scripted.godotenv scripted.in_order
                          scripted.in_order
                          (auth_ref.SourceAuthWithForm_envVars scripted.answers)
                          scripted.by_hand eq_refl eq_refl in_order_visits in_order_visits _))).
  vm_compute. reflexivity.
Defined.

(** X10 at work: the source first, then all ten variables. *)
Lemma writeEnvFile_twice_witness :
  let v1 := auth_ref.SourceAuthWithForm_envVars scripted.blank in
  let v2 := auth_ref.CompleteAuth_envVars scripted.answers in
  let fs1 := snd (auth_ref.writeEnvFile scripted.godotenv scripted.in_order v1 scripted.no_files) in
  Permutation (auth_ref.written scripted.godotenv scripted.in_order v2 fs1)
              (auth_ref.written scripted.godotenv scripted.in_order (auth_ref.merge v2 v1)
                 scripted.no_files).
Proof.
  refine (proj2 (proj2 (writeEnvFile_twice scripted.godotenv scripted.in_order
                          scripted.in_order scripted.in_order
                          (auth_ref.SourceAuthWithForm_envVars scripted.blank)
                          (auth_ref.CompleteAuth_envVars scripted.answers)
                          scripted.no_files eq_refl eq_refl in_order_visits in_order_visits _))).
  vm_compute. reflexivity.
Defined.

(** X11 at work: a user who answers the four prompts. *)
Lemma SourceAuth_agrees_with_SourceAuthWithForm_witness :
  let answered :=
    auth_ref.set_SourceToken "s3cret"
      (auth_ref.set_SourceDomain "gitlab.com"
         (auth_ref.set_SourceUsername "alice"
            (auth_ref.set_SourceType "gitlab" scripted.blank))) in
  auth_ref.SourceAuth scripted.godotenv scripted.in_order scripted.typing scripted.blank
    scripted.no_files
  = auth_ref.SourceAuthWithForm scripted.godotenv scripted.in_order
      (fun _ => (None, answered)) scripted.blank scripted.no_files.
Proof.
  exact (proj2 (SourceAuth_agrees_with_SourceAuthWithForm scripted.godotenv scripted.in_order
                  scripted.typing scripted.blank _ _ scripted.no_files eq_refl)).
Defined.


(** X13 at work: the source is asked for in a directory whose [.env] was
    written by hand; the orchestrator's configuration stays. *)
Lemma SourceAuth_invisible_to_orchestrator_witness :
  let r := auth_ref.SourceAuthWithForm scripted.godotenv scripted.in_order
             (scripted.form scripted.answers) scripted.blank scripted.by_hand in
  main_config (getEnv (dotenv_environment scripted.godotenv (snd r)))
  = main_config (getEnv (dotenv_environment scripted.godotenv scripted.by_hand)).
Proof.
  pose (r := auth_ref.SourceAuthWithForm scripted.godotenv scripted.in_order
               (scripted.form scripted.answers) scripted.blank scripted.by_hand).
  refine (SourceAuth_invisible_to_orchestrator scripted.godotenv scripted.in_order
            scripted.typing (scripted.form scripted.answers) scripted.blank scripted.answers
            scripted.by_hand (snd r) r (snd (fst (fst r))) (or_intror eq_refl) eq_refl _).
  vm_compute. reflexivity.
Defined.

(** X14 at work: the source asked for first, then the whole form. *)
Lemma CompleteAuth_supersedes_SourceAuth_witness :
  let fs1 := snd (auth_ref.SourceAuthWithForm scripted.godotenv scripted.in_order
                    (scripted.form scripted.commented) scripted.blank scripted.by_hand) in
  Permutation
    (auth_ref.written scripted.godotenv scripted.in_order
       (auth_ref.CompleteAuth_envVars scripted.answers) fs1)
    (auth_ref.written scripted.godotenv scripted.in_order
       (auth_ref.CompleteAuth_envVars scripted.answers) scripted.by_hand).
Proof.
  refine (proj2 (proj2 (CompleteAuth_supersedes_SourceAuth scripted.godotenv
                          scripted.in_order scripted.in_order scripted.in_order
                          (scripted.form scripted.commented) (scripted.form scripted.answers)
                          scripted.blank scripted.commented scripted.blank scripted.answers
                          scripted.by_hand eq_refl eq_refl eq_refl eq_refl
                          in_order_visits in_order_visits _))).
  vm_compute. reflexivity.
Defined.

(** X15 at work: the form is filled in over a [.env] written by hand; the
    user name written by hand stays. *)
Lemma CompleteAuth_touches_ten_keys_witness :
  let r := auth_ref.CompleteAuth scripted.godotenv scripted.in_order
             (scripted.form scripted.answers) scripted.blank scripted.by_hand in
  dotenv_environment scripted.godotenv (snd r) !! "SOURCE_USERNAME" = Some "alice" /\
  EnableWiki (main_config (getEnv (dotenv_environment scripted.godotenv (snd r)))) = true.
Proof.
  pose (r := auth_ref.CompleteAuth scripted.godotenv scripted.in_order
               (scripted.form scripted.answers) scripted.blank scripted.by_hand).
  destruct (CompleteAuth_touches_ten_keys scripted.godotenv scripted.in_order
              (scripted.form scripted.answers) scripted.blank scripted.answers
              scripted.by_hand (snd r) (snd (fst (fst r))) eq_refl)
    as (Hkeep & Hwiki & _).
  { vm_compute. reflexivity. }
  split.
  - cbv zeta. fold r. rewrite Hkeep; [vm_compute; reflexivity|].
    cbn [In]. intros H. repeat (destruct H as [H|H]; [discriminate H|]). exact H.
  - cbv zeta. fold r. rewrite Hwiki. vm_compute. reflexivity.
Defined.

(** A user who gives up at the third prompt: the [Forge] carries the two
    answers given, [.env] is as it was. *)
Example SourceAuth_given_up :
  auth_ref.SourceAuth scripted.godotenv scripted.in_order scripted.giving_up
    scripted.blank scripted.by_hand
  = (Some "input failed: user aborted", [],
     auth_ref.set_SourceUsername "alice" (auth_ref.set_SourceType "gitlab" scripted.blank),
     scripted.by_hand).
Proof. reflexivity. Qed.

(** A directory that cannot be written: the form is filled in, the write
    fails, [main] exits with status 1. *)
Example auth_main_read_only :
  auth_ref.main scripted.godotenv scripted.in_order (scripted.form scripted.answers)
    scripted.read_only
  = (1, [], ["Authentication failed: failed to open .env file: permission denied"],
     scripted.read_only).
Proof. reflexivity. Qed.
